(* ===== verification/_CoqProject ===== *)
-Q . S2P
Prelude.v
PyStr.v
SqlValue.v
Int4v16.v
Store.v
Session.v
Ops.v
OpsErrors.v
Loop.v
Safety.v
AbstractDB.v
Refinement.v
App.v
OrderIndep.v
