(* ===== verification/Prelude.v ===== *)
(** * Hackbright Project Tracker: a verification development

    The program (src/hackbright.py, 183 lines of Python) is a command-line
    front end to a PostgreSQL database of students, projects and grades.
    Its parts:
    - the command loop [handle_input] (lines 129-172): prompt, read a line,
      [str.split()] it, dispatch on the first token to one of six
      functions, stop after [quit]; the entry point (lines 175-183) runs it
      and closes the session;
    - six data-access functions (lines 23-126), each issuing one
      parameterised SELECT or INSERT through the one SQLAlchemy session,
      committing after each INSERT and printing a message;
    - what they rely on and the repository does not contain: Python's
      [str.split]/[str.join], list indexing and unpacking, [print]/[input],
      the session's transaction, and the database (its schema, the coercion
      of the string parameters to the column types, [fetchone]).

    Files, in dependency order (each is one [Module] of the same name):
    - [Prelude] (this file): the scope [hb_scope], the hint databases [hb]
      and [hb_str], the tactics [invc], [simpl_str], [case_bool_decide_as],
      [decide_prop], the error monad on [E + A], and shared lemmas on
      strings and on the first match of a filter.
    - [PyStr]: [str.isspace] on ASCII, [str.split()] ([py_split]) and
      [sep.join] ([py_join]) as used at lines 140 and 166.
    - [SqlValue]: SQL values, column types ([varchar(n)], [text],
      [integer]), PostgreSQL's [int4in] ([int4_in]) and [varchar]
      assignment ([varchar_in]), the coercion of a bound parameter when
      stored ([coerce_store]) or compared ([coerce_cmp]), and Python's
      [str()] of a fetched value ([py_str]).
    - [Int4v16]: PostgreSQL 16's [int4in] ([pg_strtoint32_safe]): a fast
      path for plain decimals and a slow path with [0x]/[0o]/[0b]
      prefixes and underscores, its [uint32] accumulator kept at its
      width ([uint32_wrap]) behind the code's overflow check.
    - [Store]: the three tables as lists of rows in storage order, the
      [Schema] (column types and the UNIQUE and FOREIGN KEY constraints a
      database may declare; [hackbright_schema] is the lab's schema, which
      declares none), the three INSERT statements, the three SELECTs with
      [fetchone], and the schema invariant [wf_db].  The interface
      [ScanOrder] (a class) is what [fetchone] may assume of SQL's row
      order: a permutation of storage order; [heap_order] is storage order.
    - [Session]: the world (committed state, session state, stdout), the
      state and exception monad [M] with [print], [write], [execute],
      [execute_write], [commit], [close], [py_index], [py_last],
      [unpack2]/[unpack3] and the exceptions [PyExc]; and [keeps], the
      compositional form of an invariant that survives exceptions.
    - [Ops]: the six functions, one definition each, with the source's
      names, for any schema and any [ScanOrder].
    - [Loop]: [dispatch] (the if/elif chain), [handle_input], [main], [run].
    - [Safety]: the world invariant and its preservation by everything.
    - [OpsErrors]: the error branches of the INSERTs under a schema's
      constraints ([strict_schema] in [Store] declares them all) and under
      the 32-bit range of an [integer] column.
    - [AbstractDB]: the abstract specification of the database: three stdpp
      [gmap] multimaps (students by account, projects by title, grades by
      (account, title)), each key's entries in insertion order; [abstract]
      maps the tables to it, and the INSERTs and SELECT-[fetchone]s of
      [Store] are shown to be [multi_add] and [first_of] on it.
    - [Refinement]: the data-access functions of [Ops] against the abstract
      operations [abs_new_student], [abs_give_grade], [abs_new_project].
    - [App]: the globals [app] and [db] (lines 10-11) as a record with
      [app.config] a string-keyed [gmap], [connect_to_db] (lines 14-20)
      with Flask-SQLAlchemy 2.x's [init_app] (which defaults the URI with
      [setdefault] and never fails), and the whole process
      [hackbright_process]: startup, then [main] on the database the
      engine's URL names in a cluster of databases, or [RuntimeError] at
      the first use of [db.session] when [db.app] is not set.
    - [OrderIndep]: [agree], equality of two computations from every world
      satisfying an invariant, composed through bind with [keeps]; under
      the three UNIQUE constraints every SELECT, handler, the dispatch, the
      loop and [run] agree under any two [ScanOrder]s ([reverse_order] is a
      second one, the table scanned backwards).

    Theorems (the claims C1-C28 of the manifest):
    - round trips through the store (C1-C3: create then look up prints or
      returns what was given, for any scan order), the missing-row branches
      (C4 prints a message, C10 raises [TypeError]), and C9: a repeated
      grade never shows under storage order;
    - the loop: [quit] stops reading (C5), an unknown command is reported
      and the loop goes on (C6), a blank line (C11) and a wrong argument
      count (C12) are fatal, [new_project] with one argument reuses it as
      the maximum grade (C13);
    - safety: the schema invariant of both the committed and the session
      state, committed rows and stdout only growing, whether the loop ends
      on [quit] or on an exception (C7);
    - [add_project]'s verification: its failure branch is never taken for
      a space-free title (C8), and is taken, after committing the cut
      row, for any title longer than its [varchar(n)] column whose excess
      is spaces (C14);
    - values: a grade as Lookup Grade prints it ([str()] of a 32-bit
      integer), typed back to Assign Grade, is committed as the same
      integer (C15, through [int4in] reading back Python's decimal);
    - refinement of the abstract database: Create Student, Assign Grade and
      Create Project commit exactly the abstract insertion or leave the
      world unchanged (C16-C18); Lookup Grade and Lookup Student print the
      first entry of the key or take their missing branch (C19, C20);
    - error paths and bounds: a duplicate account (C21), a grade for an
      unknown student (C22) and a duplicate title (C25) raise
      [IntegrityError] with nothing changed; an over-long account raises
      [DataError] (C26); a committed grade is a 32-bit integer (C23) and a
      grade beyond that range raises [DataError] (C24);
    - the entry point: from a fresh interpreter [connect_to_db] sets the
      URI and [db.app] and the process runs [main] on exactly the database
      [postgresql:///hackbright] (C27); under the UNIQUE constraints a
      run's outcome does not depend on the database's row order (C28),
      while under the lab's schema it does ([run_order_dependent_lab_schema]).
    Lemmas that are not claims: [fetchone] meets its order-free
    specification ([fetchone_spec]); [split()] yields tokens and inverts
    [" ".join] ([py_split_tokens], [py_split_join]); PostgreSQL 16's reader
    agrees with PostgreSQL 15's on Python's decimals ([int4_in16_py_str]);
    the spec's scenario run end to end ([spec_scenario]).

    [db.session.close()] (line 183, [close]) discards the uncommitted part
    of the session.  It is reached only after [quit], and every handler
    that writes commits before it returns, so at that point the session
    state already equals the committed state: the close is unobservable
    in this program's outcomes, and no theorem distinguishes it from a
    no-op.

    Bounds and fuel: none is needed.  [handle_input] is structurally
    recursive on the list of input lines (one line per iteration; [input()]
    past the end raises [EOFError]), so every run terminates by
    construction; integers are [Z] with the 32-bit range of [integer]
    checked as [int4in] checks it; PostgreSQL 16's [uint32] accumulator is
    kept at its width.

    Not modelled: Flask's default configuration (a parameter of
    [init_globals]) and the other [SQLALCHEMY_*] defaults [init_app]
    writes, which the program never reads; the output a run without
    [db.app] prints before its [RuntimeError]; a database URL that names no
    database (its [OperationalError] is raised at the first statement);
    the SQL text itself beyond the statements' effect, the [id serial]
    column the lab schema adds, PostgreSQL's row order (abstracted by
    [ScanOrder]), and SQLAlchemy versions that refuse textual SQL.  The
    handlers run on the PostgreSQL 15 reader [int4_in]; [Int4v16] relates
    the PostgreSQL 16 reader to it.  Rows use Rocq's [string] of 8-bit
    characters. *)

From stdpp Require Export base list sets relations countable gmap strings pretty.
From Stdlib Require Export Ascii ZArith Lia.

Declare Scope hb_scope.
Delimit Scope hb_scope with hb.

Create HintDb hb discriminated.
Create Rewrite HintDb hb_str.

Ltac invc H := inversion H; subst; clear H.

(** Close a decidable proposition about closed terms by evaluation. *)
Ltac decide_prop := apply (bool_decide_unpack _); vm_compute; exact I.

(** ** Strings: [String.append] is [simpl never] under stdpp *)

Lemma string_app_cons a s1 s2 : String a s1 +:+ s2 = String a (s1 +:+ s2).
Proof. reflexivity. Qed.

Lemma string_app_nil_l s : "" +:+ s = s.
Proof. reflexivity. Qed.

Lemma string_app_nil_r s : s +:+ "" = s.
Proof. induction s as [|a s IH]; [done|]. by rewrite string_app_cons, IH. Qed.

Lemma string_app_assoc s1 s2 s3 : s1 +:+ (s2 +:+ s3) = (s1 +:+ s2) +:+ s3.
Proof.
  induction s1 as [|a s1 IH]; [done|]. by rewrite !string_app_cons, IH.
Qed.

#[export] Hint Rewrite string_app_cons string_app_nil_l string_app_nil_r : hb_str.
#[export] Hint Rewrite <- string_app_assoc : hb_str.

Ltac simpl_str := autorewrite with hb_str in *.

(** ** The error monad [E + A]: [inl] is the error, [inr] the result *)

#[export] Instance sum_fmap {E} : FMap (sum E) :=
  λ A B f r, match r with inl e => inl e | inr a => inr (f a) end.
#[export] Instance sum_ret {E} : MRet (sum E) := λ A a, inr a.
#[export] Instance sum_bind {E} : MBind (sum E) :=
  λ A B f r, match r with inl e => inl e | inr a => f a end.

Lemma sum_fmap_inr {E A B} (f : A → B) (r : E + A) b :
  f <$> r = inr b ↔ ∃ a, r = inr a ∧ b = f a.
Proof. destruct r; simpl; split; [done|by intros (?&?&?)|intros [=<-]; eauto|by intros (?&[=->]&->)]. Qed.

Lemma sum_bind_inr {E A B} (f : A → E + B) (r : E + A) b :
  (r ≫= f) = inr b ↔ ∃ a, r = inr a ∧ f a = inr b.
Proof. destruct r; simpl; split; [done|by intros (?&?&?)|eauto|by intros (?&[=->]&?)]. Qed.

(** ** Lists: the first element of a filter *)

Section head_filter.
Context {A : Type} (P : A → Prop) `{∀ x, Decision (P x)}.

Lemma head_filter_Some (l : list A) x :
  head (filter P l) = Some x → x ∈ l ∧ P x.
Proof.
  induction l as [|y l IH]; [done|]. rewrite filter_cons.
  case_decide; simpl.
  - intros [= ->]. split; [left|]; done.
  - intros Hx. destruct (IH Hx). split; [by right|done].
Qed.

Lemma head_filter_None (l : list A) :
  head (filter P l) = None ↔ ∀ x, x ∈ l → ¬ P x.
Proof.
  induction l as [|y l IH]; simpl.
  - split; [|done]. intros _ x Hx. by apply elem_of_nil in Hx.
  - rewrite filter_cons. case_decide; simpl.
    + split; [done|]. intros Hn. exfalso. eapply Hn; [left|]; done.
    + rewrite IH. split.
      * intros Hl x [->|Hx]%elem_of_cons; auto.
      * intros Hl x Hx. apply Hl. by right.
Qed.

Lemma head_filter_snoc (l : list A) x :
  head (filter P (l ++ [x])) =
    match head (filter P l) with
    | Some y => Some y
    | None => if decide (P x) then Some x else None
    end.
Proof.
  rewrite filter_app, filter_cons, filter_nil.
  destruct (filter P l); simpl; [by case_decide|done].
Qed.
End head_filter.

#[export] Hint Resolve head_filter_Some : hb.

(** ** Keys of a list of rows *)

Lemma NoDup_fmap_snoc {A B} (f : A → B) (l : list A) x :
  NoDup (f <$> l ++ [x]) ↔ NoDup (f <$> l) ∧ f x ∉ f <$> l.
Proof.
  rewrite fmap_snoc, NoDup_app. split.
  - intros (? & Hx & _). split; [done|]. intros Hin. by apply (Hx _ Hin), list_elem_of_singleton.
  - intros [? Hx]. split_and!; [done| |apply NoDup_singleton].
  intros y Hy ->%list_elem_of_singleton. done.
Qed.

Lemma Exists_key {A B} (key : A → B) (v : B) (l : list A) :
  Exists (λ r, key r = v) l ↔ v ∈ key <$> l.
Proof. rewrite Exists_exists, list_elem_of_fmap. naive_solver. Qed.

(** Case analysis on a [bool_decide] in the goal, keeping its proposition. *)
Ltac case_bool_decide_as H :=
  match goal with
  | |- context [bool_decide ?P] =>
    destruct (bool_decide P) eqn:H;
    [apply bool_decide_eq_true in H | apply bool_decide_eq_false in H]
  end.
