(* ===== verification/PyStr.v ===== *)
(** * Python string operations used by the command loop

    [handle_input] (src/hackbright.py, lines 139-142 and 165-166) tokenises
    the input line with [str.split()] (no separator: runs of whitespace
    separate tokens, empty tokens are dropped) and rebuilds the project
    description with [" ".join(...)].  This file models both on ASCII
    strings, with Python's [str.isspace] on the ASCII range, and proves
    that the tokens are non-empty and space-free and that splitting a
    space-joined list of tokens gives the list back. *)

From S2P Require Import Prelude.

Module PyStr.

(** [str.isspace] on one ASCII character: HT, LF, VT, FF, CR (9-13), the
    information separators FS, GS, RS, US (28-31) and the space (32). *)
Definition py_isspace (c : ascii) : bool :=
  let n := Ascii.nat_of_ascii c in
  ((9 <=? n) && (n <=? 13)) || ((28 <=? n) && (n <=? 32)).

(** The token accumulated so far, flushed at a separator or at the end. *)
Definition flush (cur : string) : list string :=
  match cur with
  | EmptyString => []
  | _ => [cur]
  end.

Fixpoint split_go (cur : string) (s : string) : list string :=
  match s with
  | EmptyString => flush cur
  | String c s' =>
      if py_isspace c then flush cur ++ split_go "" s'
      else split_go (cur +:+ String c "") s'
  end.

(** [input_string.split()] *)
Definition py_split (s : string) : list string := split_go "" s.

(** [sep.join(l)] *)
Fixpoint py_join (sep : string) (l : list string) : string :=
  match l with
  | [] => ""
  | [x] => x
  | x :: l' => x +:+ sep +:+ py_join sep l'
  end.

(** A string with no whitespace character. *)
Fixpoint no_space (s : string) : bool :=
  match s with
  | EmptyString => true
  | String c s' => negb (py_isspace c) && no_space s'
  end.

(** What [str.split()] can return as one element. *)
Definition is_token (s : string) : bool :=
  match s with
  | EmptyString => false
  | _ => no_space s
  end.

(** ** Lemmas *)

Lemma no_space_app s1 s2 : no_space (s1 +:+ s2) = no_space s1 && no_space s2.
Proof.
  induction s1 as [|c s1 IH]; [done|].
  rewrite string_app_cons. simpl. rewrite IH. by destruct (negb _).
Qed.

Lemma is_token_app_char cur c :
  no_space cur = true → py_isspace c = false → is_token (cur +:+ String c "") = true.
Proof.
  intros Hcur Hc. destruct cur as [|a cur].
  - rewrite string_app_nil_l. simpl. by rewrite Hc.
  - rewrite string_app_cons. unfold is_token. rewrite <-string_app_cons, no_space_app.
    rewrite Hcur. simpl. by rewrite Hc.
Qed.

Lemma flush_tokens cur : no_space cur = true → Forall (λ w, is_token w = true) (flush cur).
Proof. destruct cur; simpl; intros; repeat constructor; done. Qed.

Lemma split_go_tokens s cur :
  no_space cur = true → Forall (λ w, is_token w = true) (split_go cur s).
Proof.
  revert cur. induction s as [|c s IH]; intros cur Hcur; simpl.
  - by apply flush_tokens.
  - destruct (py_isspace c) eqn:Hc.
    + apply Forall_app. split; [by apply flush_tokens|by apply IH].
    + apply IH. rewrite no_space_app. simpl. rewrite Hc, Hcur. done.
Qed.

(** Reading a space-free word only extends the current token. *)
Lemma split_go_word cur w s :
  no_space w = true → split_go cur (w +:+ s) = split_go (cur +:+ w) s.
Proof.
  revert cur. induction w as [|c w IH]; intros cur Hw.
  - by rewrite string_app_nil_r.
  - simpl in Hw. apply andb_prop in Hw as [Hc Hw].
    rewrite string_app_cons. simpl. apply negb_true_iff in Hc. rewrite Hc.
    rewrite IH by done. by rewrite <-string_app_assoc.
Qed.

Lemma split_go_space cur c s :
  py_isspace c = true → split_go cur (String c s) = flush cur ++ split_go "" s.
Proof. intros Hc. simpl. by rewrite Hc. Qed.

Lemma split_go_word_end cur w :
  no_space w = true → split_go cur w = flush (cur +:+ w).
Proof.
  intros Hw. rewrite <-(string_app_nil_r w) at 1. by rewrite split_go_word.
Qed.

Lemma is_token_no_space w : is_token w = true → no_space w = true.
Proof. by destruct w. Qed.

Lemma flush_token w : is_token w = true → flush w = [w].
Proof. by destruct w. Qed.

(** ** Properties of [str.split] and [str.join] *)

(** Every element of [input_string.split()] is a non-empty string
    without whitespace. *)
Theorem py_split_tokens s : Forall (λ w, is_token w = true) (py_split s).
Proof. apply split_go_tokens. done. Qed.

(** [" ".join] then [split()] gives back a list of tokens: the
    tokenizer inverts the join used for the project description. *)
Theorem py_split_join ws :
  Forall (λ w, is_token w = true) ws → py_split (py_join " " ws) = ws.
Proof.
  unfold py_split. induction 1 as [|w ws Hw Hws IH]; [done|].
  destruct ws as [|w' ws].
  - simpl. rewrite split_go_word_end by (by apply is_token_no_space). by apply flush_token.
  - change (py_join " " (w :: w' :: ws)) with (w +:+ " " +:+ py_join " " (w' :: ws)).
    rewrite split_go_word by (by apply is_token_no_space).
    rewrite string_app_nil_l, string_app_cons, string_app_nil_l.
    rewrite split_go_space by done. rewrite flush_token by done. by rewrite IH.
Qed.

End PyStr.
