(* ===== verification/SqlValue.v ===== *)
(** * SQL values and the coercion of bound parameters

    Every parameter the program binds into a query ([db.session.execute(QUERY,
    {...})] in src/hackbright.py) is a Python [str] taken from the command
    line.  The store converts it to the type of the column it is inserted
    into or compared with: a [varchar(n)] or [text] value, or an [integer]
    read by PostgreSQL's [int4in].  A value read back is printed by Python's
    [str()].  This file holds the values, the column types, the input
    functions with their error conditions (SQLSTATE classes 22 and 23), and
    [py_str]. *)

From S2P Require Import Prelude PyStr.

Module SqlValue.
Import PyStr.

Inductive SqlVal :=
| VText (s : string)
| VInt (z : Z).

#[export] Instance SqlVal_eq_dec : EqDecision SqlVal.
Proof. solve_decision. Defined.

#[export] Instance SqlVal_countable : Countable SqlVal.
Proof.
  apply (inj_countable' (λ v, match v with VText s => inl s | VInt z => inr z end)
                        (λ x, match x with inl s => VText s | inr z => VInt z end)).
  by intros [].
Defined.

(** A column type: [varchar(n)] ([TText (Some n)]), [text] ([TText None]) or
    [integer]. *)
Inductive ColTy :=
| TText (limit : option nat)
| TInt.

(** The errors the database driver raises as Python exceptions. *)
Inductive DbError :=
| InvalidTextRepresentation     (** 22P02, psycopg2 DataError *)
| NumericValueOutOfRange        (** 22003, psycopg2 DataError *)
| StringDataRightTruncation     (** 22001, psycopg2 DataError *)
| UniqueViolation               (** 23505, psycopg2 IntegrityError *)
| ForeignKeyViolation.          (** 23503, psycopg2 IntegrityError *)

#[export] Instance DbError_eq_dec : EqDecision DbError.
Proof. solve_decision. Defined.

Definition int4_min : Z := (- 2 ^ 31)%Z.
Definition int4_max : Z := (2 ^ 31 - 1)%Z.

(** [isspace] of the C locale, as [int4in] uses it. *)
Definition c_isspace (c : ascii) : bool :=
  let n := Ascii.nat_of_ascii c in ((9 <=? n) && (n <=? 13)) || (n =? 32).

Definition digit_of (c : ascii) : option Z :=
  let n := (Z.of_nat (Ascii.nat_of_ascii c) - 48)%Z in
  if (0 <=? n)%Z && (n <=? 9)%Z then Some n else None.

Fixpoint skip_spaces (s : string) : string :=
  match s with
  | String c s' => if c_isspace c then skip_spaces s' else s
  | EmptyString => EmptyString
  end.

(** The digit loop of [pg_strtoint32]: the value is accumulated negated,
    [tmp = tmp * 10 - digit], and an overflow of the 32-bit accumulator is
    reported at once. *)
Fixpoint int4_digits (acc : Z) (s : string) : DbError + (Z * string) :=
  match s with
  | String c s' =>
      match digit_of c with
      | Some d =>
          let acc' := (acc * 10 - d)%Z in
          if (acc' <? int4_min)%Z then inl NumericValueOutOfRange else int4_digits acc' s'
      | None => inr (acc, s)
      end
  | EmptyString => inr (acc, EmptyString)
  end.

Definition split_sign (s : string) : bool * string :=
  match s with
  | String c r =>
      if decide (c = "-"%char) then (true, r)
      else if decide (c = "+"%char) then (false, r)
      else (false, s)
  | EmptyString => (false, s)
  end.

Definition starts_with_digit (s : string) : bool :=
  match s with
  | String c _ => bool_decide (is_Some (digit_of c))
  | EmptyString => false
  end.

(** [int4in]: leading and trailing C spaces, one optional sign, at least
    one decimal digit, the value in [int4_min .. int4_max]. *)
Definition int4_in (s : string) : DbError + Z :=
  let '(neg, s2) := split_sign (skip_spaces s) in
  if negb (starts_with_digit s2) then inl InvalidTextRepresentation else
  match int4_digits 0 s2 with
  | inl e => inl e
  | inr (acc, rest) =>
      match skip_spaces rest with
      | EmptyString =>
          if neg then inr acc
          else if decide (acc = int4_min) then inl NumericValueOutOfRange
          else inr (- acc)%Z
      | _ => inl InvalidTextRepresentation
      end
  end.

Fixpoint all_spaces (s : string) : bool :=
  match s with
  | EmptyString => true
  | String c s' => bool_decide (c = " "%char) && all_spaces s'
  end.

(** Assignment to [varchar(n)]: a longer value is an error unless the excess
    characters are all spaces, which are then cut off. *)
Definition varchar_in (limit : option nat) (s : string) : DbError + string :=
  match limit with
  | None => inr s
  | Some n =>
      if String.length s <=? n then inr s
      else if all_spaces (String.substring n (String.length s - n) s)
           then inr (String.substring 0 n s)
           else inl StringDataRightTruncation
  end.

(** A parameter stored into a column of type [t]. *)
Definition coerce_store (t : ColTy) (s : string) : DbError + SqlVal :=
  match t with
  | TText lim => VText <$> varchar_in lim s
  | TInt => VInt <$> int4_in s
  end.

(** A parameter compared with a column of type [t] in a [WHERE] clause:
    the literal is read at the column's base type, without a length check. *)
Definition coerce_cmp (t : ColTy) (s : string) : DbError + SqlVal :=
  match t with
  | TText _ => inr (VText s)
  | TInt => VInt <$> int4_in s
  end.

(** The values a column of each type can hold. *)
Definition val_has_ty (t : ColTy) (v : SqlVal) : Prop :=
  match t, v with
  | TText None, VText _ => True
  | TText (Some n), VText s => String.length s ≤ n
  | TInt, VInt z => (int4_min ≤ z ≤ int4_max)%Z
  | _, _ => False
  end.

#[export] Instance val_has_ty_dec t v : Decision (val_has_ty t v).
Proof. destruct t as [[n|]|], v; simpl; apply _. Defined.

(** A string that a text column stores as it is. *)
Definition text_fits (t : ColTy) (s : string) : Prop :=
  match t with
  | TText None => True
  | TText (Some n) => String.length s ≤ n
  | TInt => False
  end.

#[export] Instance text_fits_dec t s : Decision (text_fits t s).
Proof. destruct t as [[n|]|]; simpl; apply _. Defined.

(** ** Lemmas *)

Lemma text_fits_store t s : text_fits t s → coerce_store t s = inr (VText s).
Proof.
  destruct t as [[n|]|]; simpl; [|done|done].
  intros Hn. by destruct (Nat.leb_spec (String.length s) n); [|lia].
Qed.

Lemma text_fits_cmp t s : text_fits t s → coerce_cmp t s = inr (VText s).
Proof. by destruct t as [[n|]|]. Qed.

Lemma length_substring n m s :
  String.length (String.substring n m s) = min m (String.length s - n).
Proof.
  revert n m. induction s as [|c s IH]; intros [|n] [|m];
    cbn [String.substring String.length]; rewrite ?IH; lia.
Qed.

Lemma no_space_all_spaces s n m :
  no_space s = true → all_spaces (String.substring n m s) = true → String.substring n m s = "".
Proof.
  revert n m. induction s as [|c s IH]; intros n m; [by destruct n, m|].
  cbn [no_space]. intros [Hc Hs]%andb_prop.
  destruct n as [|n]; [destruct m as [|m]|]; cbn [String.substring all_spaces]; [done| |by apply IH].
  intros [Hsp _]%andb_prop. apply bool_decide_eq_true in Hsp as ->. done.
Qed.

(** A value without whitespace is stored as given, or refused. *)
Lemma varchar_in_no_space lim s s' :
  no_space s = true → varchar_in lim s = inr s' → s' = s.
Proof.
  destruct lim as [n|]; simpl; [|by intros _ [= <-]].
  intros Hs. destruct (Nat.leb_spec (String.length s) n); [by intros [= <-]|].
  case_match eqn:E; [|done]. apply no_space_all_spaces in E; [|done].
  apply (f_equal String.length) in E. rewrite length_substring in E. simpl in E. lia.
Qed.

Lemma digit_of_range c d : digit_of c = Some d → (0 ≤ d ≤ 9)%Z.
Proof.
  unfold digit_of. case_match eqn:E; [|done]. intros [= <-].
  apply andb_prop in E as [?%Z.leb_le ?%Z.leb_le]. lia.
Qed.

Lemma int4_digits_bounds s acc acc' rest :
  (int4_min ≤ acc ≤ 0)%Z → int4_digits acc s = inr (acc', rest) →
  (int4_min ≤ acc' ≤ 0)%Z.
Proof.
  revert acc. induction s as [|c s IH]; intros acc Hacc; simpl; [by intros [= <- _]|].
  destruct (digit_of c) as [d|] eqn:Hd; [|by intros [= <- _]].
  apply digit_of_range in Hd.
  destruct (Z.ltb_spec (acc * 10 - d) int4_min); [done|].
  apply IH. lia.
Qed.

(** A space-free parameter compares equal to the value it was stored as. *)
Lemma coerce_store_cmp t s v :
  no_space s = true → coerce_store t s = inr v → coerce_cmp t s = inr v.
Proof.
  destruct t as [lim|]; cbn [coerce_store coerce_cmp]; [|done].
  intros Hs (s' & Hs' & ->)%sum_fmap_inr. by rewrite (varchar_in_no_space lim s s').
Qed.

(** ** [int4in] reads back what Python prints of an integer *)

Lemma pretty_N_go_app n s : pretty_N_go n s = pretty_N_go n "" +:+ s.
Proof.
  revert s. induction (N.lt_wf_0 n) as [n _ IH]; intros s.
  destruct (decide (n = 0%N)) as [->|Hn]; [done|].
  assert (n `div` 10 < n)%N as Hlt by (apply N.div_lt; lia).
  rewrite !(pretty_N_go_step n) by lia.
  rewrite (IH _ Hlt (String _ s)), (IH _ Hlt (String _ "")).
  by rewrite <-string_app_assoc, string_app_cons.
Qed.

Lemma digit_of_pretty_N_char d : (d < 10)%N → digit_of (pretty_N_char d) = Some (Z.of_N d).
Proof.
  intros Hd. assert (d = 0 ∨ d = 1 ∨ d = 2 ∨ d = 3 ∨ d = 4 ∨ d = 5 ∨ d = 6 ∨ d = 7
    ∨ d = 8 ∨ d = 9)%N as Hc by lia. by repeat destruct Hc as [->|Hc]; [..|subst].
Qed.

Lemma int4_digits_pretty_any n s :
  int4_digits 0 (pretty_N_go n "" +:+ s) =
    if decide (n ≤ 2 ^ 31)%N then int4_digits (- Z.of_N n) s else inl NumericValueOutOfRange.
Proof.
  revert s. induction (N.lt_wf_0 n) as [n _ IH]; intros s.
  destruct (decide (n = 0%N)) as [->|Hn0]; [by rewrite decide_True by lia|].
  rewrite pretty_N_go_step by lia. rewrite pretty_N_go_app, <-string_app_assoc, string_app_cons.
  assert (n `div` 10 < n)%N as Hlt by (apply N.div_lt; lia).
  rewrite IH by done. case_decide as Hd.
  - simpl. rewrite digit_of_pretty_N_char by (apply N.mod_lt; lia).
    assert (- Z.of_N (n `div` 10) * 10 - Z.of_N (n `mod` 10) = - Z.of_N n)%Z as ->.
    { pose proof (N.div_mod n 10). lia. }
    unfold int4_min. destruct (Z.ltb_spec (- Z.of_N n) (- 2 ^ 31)); case_decide; done || lia.
  - rewrite decide_False; [done|]. intros Hn. apply Hd. apply N.Div0.div_le_upper_bound. lia.
Qed.

(** The digit loop reads the decimal digits of [n ≤ 2^31] into [-n]. *)
Lemma int4_digits_pretty n s :
  (n ≤ 2 ^ 31)%N → int4_digits 0 (pretty_N_go n "" +:+ s) = int4_digits (- Z.of_N n) s.
Proof. intros Hn. by rewrite int4_digits_pretty_any, decide_True. Qed.

Lemma pretty_N_go_head n :
  n ≠ 0%N → ∃ c r, pretty_N_go n "" = String c r ∧ is_Some (digit_of c).
Proof.
  induction (N.lt_wf_0 n) as [n _ IH]; intros Hn.
  rewrite pretty_N_go_step, pretty_N_go_app by lia.
  destruct (decide (n `div` 10 = 0)%N) as [Hd|Hd].
  - rewrite Hd. eexists _, _. split; [done|]. rewrite digit_of_pretty_N_char by (apply N.mod_lt; lia).
    by eexists.
  - destruct (IH (n `div` 10)%N) as (c & r & -> & Hc); [apply N.div_lt; lia|done|].
    by exists c, (r +:+ String (pretty_N_char (n `mod` 10)) "").
Qed.

Lemma digit_not_space c : is_Some (digit_of c) → c_isspace c = false.
Proof.
  unfold digit_of, c_isspace. case_match eqn:E; [|by intros []]. intros _.
  apply andb_prop in E as [?%Z.leb_le ?%Z.leb_le].
  repeat match goal with |- context [?a <=? ?b] => destruct (Nat.leb_spec a b) end;
  destruct (Nat.eqb_spec (nat_of_ascii c) 32); simpl; lia.
Qed.

Lemma digit_not_sign c : is_Some (digit_of c) → c ≠ "-"%char ∧ c ≠ "+"%char.
Proof. intros Hc. split; intros ->; by destruct Hc. Qed.

(** What [int4in] sees of the decimal digits of a positive [n]. *)
Lemma pretty_N_shape n :
  n ≠ 0%N →
  let D := pretty_N_go n "" in
  skip_spaces D = D ∧ split_sign D = (false, D) ∧ starts_with_digit D = true.
Proof.
  intros Hn D. destruct (pretty_N_go_head n Hn) as (c & r & Hcr & Hc).
  pose proof (digit_not_space c Hc) as Hsp. destruct (digit_not_sign c Hc) as [Hm Hp].
  unfold D. rewrite Hcr. split_and!; simpl; [by rewrite Hsp|by repeat case_decide|].
  by apply bool_decide_eq_true.
Qed.

Lemma int4_digits_pretty_end n :
  int4_digits 0 (pretty_N_go n "") =
    if decide (n ≤ 2 ^ 31)%N then inr (- Z.of_N n, "")%Z else inl NumericValueOutOfRange.
Proof.
  rewrite <-(string_app_nil_r (pretty_N_go n "")), int4_digits_pretty_any. by case_decide.
Qed.

(** Python's [str()] of a value fetched by psycopg2. *)
Definition py_str (v : SqlVal) : string :=
  match v with
  | VText s => s
  | VInt z => pretty z
  end.

(** A value accepted by [int4in] is a 32-bit signed integer. *)
Theorem int4_in_bounds s z : int4_in s = inr z → (int4_min ≤ z ≤ int4_max)%Z.
Proof.
  unfold int4_in. destruct (split_sign (skip_spaces s)) as [neg s2].
  destruct (starts_with_digit s2); simpl; [|done].
  destruct (int4_digits 0 s2) as [|[acc rest]] eqn:Hd; [done|].
  apply int4_digits_bounds in Hd; [|unfold int4_min; lia].
  destruct (skip_spaces rest); [|done].
  unfold int4_max, int4_min in *.
  destruct neg; [intros [= <-]; lia|]. case_decide; [done|]. intros [= <-]. lia.
Qed.

Lemma varchar_in_length n s s' :
  varchar_in (Some n) s = inr s' → String.length s' ≤ n.
Proof.
  simpl. destruct (Nat.leb_spec (String.length s) n); [by intros [= <-]|].
  case_match; [|done]. intros [= <-]. rewrite length_substring. lia.
Qed.

(** A parameter the store accepts for a column is a value of the
    column's type. *)
Theorem coerce_store_typed t s v : coerce_store t s = inr v → val_has_ty t v.
Proof.
  destruct t as [[n|]|]; cbn [coerce_store]; intros (x & Hx & ->)%sum_fmap_inr; simpl.
  - by eapply varchar_in_length.
  - done.
  - by eapply int4_in_bounds.
Qed.

(** [int4in] reads back the decimal text of every 32-bit integer. *)
Theorem int4_in_pretty z : (int4_min ≤ z ≤ int4_max)%Z → int4_in (pretty z) = inr z.
Proof.
  unfold int4_min, int4_max. intros Hz. destruct z as [|p|p]; [done| |].
  - destruct (pretty_N_shape (Npos p) ltac:(done)) as (H1 & H2 & H3).
    change (pretty (Z.pos p)) with (pretty_N_go (Npos p) "").
    unfold int4_in. rewrite H1, H2. simpl. rewrite H3, int4_digits_pretty_end.
    rewrite decide_True by lia. simpl. case_decide; [unfold int4_min in *; lia|done].
  - destruct (pretty_N_shape (Npos p) ltac:(done)) as (H1 & H2 & H3).
    change (pretty (Z.neg p)) with (String "-" (pretty_N_go (Npos p) "")).
    unfold int4_in. simpl. rewrite H3, int4_digits_pretty_end, decide_True by lia. done.
Qed.

(** Outside the 32-bit range, the decimal text of an integer is refused
    with [numeric_value_out_of_range]. *)
Lemma int4_in_pretty_out_of_range z :
  (z < int4_min ∨ int4_max < z)%Z → int4_in (pretty z) = inl NumericValueOutOfRange.
Proof.
  unfold int4_min, int4_max. intros Hz. destruct z as [|p|p]; [lia| |].
  - destruct (pretty_N_shape (Npos p) ltac:(done)) as (H1 & H2 & H3).
    change (pretty (Z.pos p)) with (pretty_N_go (Npos p) "").
    unfold int4_in. rewrite H1, H2. simpl. rewrite H3, int4_digits_pretty_end.
    case_decide; [|done]. simpl. rewrite decide_True; [done|unfold int4_min; lia].
  - destruct (pretty_N_shape (Npos p) ltac:(done)) as (H1 & H2 & H3).
    change (pretty (Z.neg p)) with (String "-" (pretty_N_go (Npos p) "")).
    unfold int4_in. simpl. rewrite H3, int4_digits_pretty_end, decide_False by lia. done.
Qed.

End SqlValue.
