(* ===== verification/Int4v16.v ===== *)
(** * Int4v16: PostgreSQL 16's integer input

    SqlValue.v models [int4in] as PostgreSQL up to 15 reads an integer
    parameter: decimal digits only.  From PostgreSQL 16 on, [int4in] calls
    [pg_strtoint32_safe] (src/backend/utils/adt/numutils.c), which also
    accepts the prefixes [0x], [0o], [0b] and single underscores between
    digits.  It runs in two stages:
    - a fast path for the common case, an optional [-] and decimal digits
      up to the end of the string;
    - a slow path, run from the start of the string when the fast path
      does not reach the end: spaces, a sign, a base prefix, digits with
      underscores, trailing spaces.
    Both accumulate the magnitude in a [uint32] [tmp], guarded by the check
    [tmp > -(PG_INT32_MIN / base)] before each [tmp * base + digit]; the
    accumulator is kept at its width here ([mod 2^32]) so that the check
    is what keeps it exact.

    The grade of Assign Grade and the maximum grade of Create Project go
    through this reader when their column is [integer]. *)
From S2P Require Import Prelude SqlValue.

Module Int4v16.
Import SqlValue.

Definition uint32_wrap (z : Z) : Z := (z mod 2 ^ 32)%Z.

(** [-(PG_INT32_MIN / base)]: the largest [tmp] that may still be
    multiplied by [base]. *)
Definition tmp_limit (base : Z) : Z := (2 ^ 31 / base)%Z.

(** A digit of [base]: [isxdigit] and [hexlookup] for 16, ['0'..'7'] for 8,
    ['0'..'1'] for 2 and ['0'..'9'] for 10. *)
Definition digit_in (base : Z) (c : ascii) : option Z :=
  let n := Z.of_nat (Ascii.nat_of_ascii c) in
  let v := if (48 <=? n)%Z && (n <=? 57)%Z then Some (n - 48)%Z
           else if (97 <=? n)%Z && (n <=? 102)%Z then Some (n - 87)%Z
           else if (65 <=? n)%Z && (n <=? 70)%Z then Some (n - 55)%Z
           else None in
  match v with
  | Some d => if (d <? base)%Z then Some d else None
  | None => None
  end.

(** The end of both paths: [-((int32) tmp)] when [tmp <= 2^31], or
    [(int32) tmp] when [tmp <= PG_INT32_MAX]. *)
Definition finish (neg : bool) (tmp : Z) : DbError + Z :=
  if neg then (if (2 ^ 31 <? tmp)%Z then inl NumericValueOutOfRange else inr (- tmp)%Z)
  else (if (int4_max <? tmp)%Z then inl NumericValueOutOfRange else inr tmp).

(** ** The slow path *)

(** The digit loop of one base.  [at_first] is [ptr == firstdigit]; an
    underscore must be followed by a digit and, in decimal, may not come
    first.  The result is the accumulator, whether no digit was read, and
    the rest of the string. *)
Fixpoint scan_digits (base : Z) (tmp : Z) (at_first : bool) (s : string)
    : DbError + (Z * bool * string) :=
  match s with
  | String c r =>
      match digit_in base c with
      | Some d =>
          if (tmp_limit base <? tmp)%Z then inl NumericValueOutOfRange
          else scan_digits base (uint32_wrap (tmp * base + d)) false r
      | None =>
          if decide (c = "_"%char) then
            if at_first && bool_decide (base = 10%Z) then inl InvalidTextRepresentation
            else match r with
                 | String c' _ =>
                     if bool_decide (is_Some (digit_in base c'))
                     then scan_digits base tmp false r else inl InvalidTextRepresentation
                 | EmptyString => inl InvalidTextRepresentation
                 end
          else inr (tmp, at_first, s)
      end
  | EmptyString => inr (tmp, at_first, EmptyString)
  end.

(** The base prefix after the sign: [0x]/[0X], [0o]/[0O], [0b]/[0B]. *)
Definition base_of (s : string) : Z * string :=
  match s with
  | String z (String c r) =>
      if decide (z = "0"%char) then
        if decide (c = "x"%char ∨ c = "X"%char) then (16%Z, r)
        else if decide (c = "o"%char ∨ c = "O"%char) then (8%Z, r)
        else if decide (c = "b"%char ∨ c = "B"%char) then (2%Z, r)
        else (10%Z, s)
      else (10%Z, s)
  | _ => (10%Z, s)
  end.

(** From the first digit of [base] on: the digits, at least one, then
    trailing spaces to the end. *)
Definition slow_body (neg : bool) (base : Z) (s3 : string) : DbError + Z :=
  match scan_digits base 0 true s3 with
  | inl e => inl e
  | inr (tmp, no_digit, rest) =>
      if no_digit then inl InvalidTextRepresentation
      else match skip_spaces rest with
           | EmptyString => finish neg tmp
           | _ => inl InvalidTextRepresentation
           end
  end.

(** The slow path: spaces, sign, base prefix, then [slow_body]. *)
Definition int4_in16_slow (s : string) : DbError + Z :=
  let '(neg, s2) := split_sign (skip_spaces s) in
  let '(base, s3) := base_of s2 in
  slow_body neg base s3.

(** ** The fast path *)

(** Decimal digits after the first, [digit = *ptr - '0'] while [< 10]. *)
Fixpoint fast_digits (tmp : Z) (s : string) : DbError + (Z * string) :=
  match s with
  | String c r =>
      match digit_of c with
      | Some d =>
          if (tmp_limit 10 <? tmp)%Z then inl NumericValueOutOfRange
          else fast_digits (uint32_wrap (tmp * 10 + d)) r
      | None => inr (tmp, s)
      end
  | EmptyString => inr (tmp, EmptyString)
  end.

(** The fast path's sign: only [-]; a [+] is left to the slow path. *)
Definition fast_sign (s : string) : bool * string :=
  match s with
  | String c r => if decide (c = "-"%char) then (true, r) else (false, s)
  | EmptyString => (false, s)
  end.

(** [pg_strtoint32_safe]: the fast path on an optional [-] and decimal
    digits to the end of the string, else the slow path from the start. *)
Definition int4_in16 (s : string) : DbError + Z :=
  let '(neg, s1) := fast_sign s in
  match s1 with
  | String c r =>
      match digit_of c with
      | Some d =>
          match fast_digits d r with
          | inl e => inl e
          | inr (tmp, EmptyString) => finish neg tmp
          | inr _ => int4_in16_slow s
          end
      | None => int4_in16_slow s
      end
  | EmptyString => int4_in16_slow s
  end.

(** No underscore anywhere in the text: the inputs on which the decimal
    loops of PostgreSQL 15 and 16 can be compared. *)
Fixpoint no_underscore (s : string) : bool :=
  match s with
  | EmptyString => true
  | String c r => negb (bool_decide (c = "_"%char)) && no_underscore r
  end.

(** ** Lemmas *)

Lemma digit_in_10 c : digit_in 10 c = digit_of c.
Proof.
  unfold digit_in, digit_of. set (n := Z.of_nat (nat_of_ascii c)).
  destruct (decide (48 ≤ n ≤ 57)%Z) as [Hd|Hd].
  - rewrite (proj2 (Z.leb_le 48 n)), (proj2 (Z.leb_le n 57)) by lia. simpl.
    rewrite (proj2 (Z.ltb_lt (n - 48) 10)), (proj2 (Z.leb_le 0 (n - 48))),
      (proj2 (Z.leb_le (n - 48) 9)) by lia. done.
  - assert ((48 <=? n)%Z && (n <=? 57)%Z = false) as ->.
    { destruct (Z.leb_spec 48 n), (Z.leb_spec n 57); simpl; done || lia. }
    assert ((0 <=? n - 48)%Z && (n - 48 <=? 9)%Z = false) as ->.
    { destruct (Z.leb_spec 0 (n - 48)), (Z.leb_spec (n - 48) 9); simpl; done || lia. }
    repeat match goal with |- context [(?a <=? ?b)%Z] => destruct (Z.leb_spec a b) end;
      simpl; repeat match goal with |- context [(?a <? ?b)%Z] => destruct (Z.ltb_spec a b) end;
      done || lia.
Qed.

(** Under the check [tmp <= -(PG_INT32_MIN / base)], [tmp * base + digit]
    does not wrap. *)
Lemma uint32_wrap_exact base tmp d :
  (0 < base ≤ 16)%Z → (0 ≤ tmp ≤ tmp_limit base)%Z → (0 ≤ d < base)%Z →
  uint32_wrap (tmp * base + d) = (tmp * base + d)%Z.
Proof.
  unfold uint32_wrap, tmp_limit. intros Hb Ht Hd. apply Z.mod_small.
  pose proof (Z.mul_div_le (2 ^ 31) base ltac:(lia)). nia.
Qed.

Lemma digit_of_lt c d : digit_of c = Some d → (0 ≤ d < 10)%Z.
Proof. intros Hc%digit_of_range. lia. Qed.

(** The decimal loop of the slow path reads the same digits as the fast
    path, with the same checks. *)
Lemma scan_fast tmp r :
  scan_digits 10 tmp false r =
    match fast_digits tmp r with
    | inl e => inl e
    | inr (t, rest) => scan_digits 10 t false rest
    end.
Proof.
  revert tmp. induction r as [|c r IH]; intros tmp; [done|].
  cbn [scan_digits fast_digits]. rewrite digit_in_10.
  destruct (digit_of c) as [d|] eqn:Hd; [|cbn [scan_digits]; by rewrite digit_in_10, Hd].
  destruct (Z.ltb _ _); [done|]. apply IH.
Qed.

(** Where the fast path starts on a digit, the slow path sees the same
    sign and the same digits. *)
Lemma split_sign_fast s neg c r :
  fast_sign s = (neg, String c r) → is_Some (digit_of c) →
  split_sign (skip_spaces s) = (neg, String c r).
Proof.
  destruct s as [|a s]; simpl; [done|]. case_decide as Ha.
  - intros Heq _. injection Heq as Hn Hr. subst neg a s. done.
  - intros Heq Hc. injection Heq as Hn Hac Hr. subst neg a s. pose proof (digit_not_space c Hc) as Hsp.
    destruct (digit_not_sign c Hc). simpl. rewrite Hsp. simpl. by repeat case_decide.
Qed.

(** A run the fast path ends on its own never starts with a base prefix. *)
Lemma base_of_fast c d r :
  digit_of c = Some d →
  (∃ e, fast_digits d r = inl e) ∨ (∃ t, fast_digits d r = inr (t, EmptyString)) →
  base_of (String c r) = (10%Z, String c r).
Proof.
  intros _ Hf. unfold base_of. destruct r as [|x r]; [done|].
  repeat case_decide; try done;
    repeat match goal with H : _ ∨ _ |- _ => destruct H as [->| ->] end;
    destruct Hf as [[? Hf]|[? Hf]]; simpl in Hf; discriminate Hf.
Qed.

Lemma slow_body_fast neg c r d :
  digit_of c = Some d →
  (∀ e, fast_digits d r = inl e → slow_body neg 10 (String c r) = inl e) ∧
  (∀ t, fast_digits d r = inr (t, EmptyString) → slow_body neg 10 (String c r) = finish neg t).
Proof.
  intros Hc. unfold slow_body. cbn [scan_digits]. rewrite digit_in_10, Hc.
  apply digit_of_lt in Hc. rewrite (proj2 (Z.ltb_ge _ _)) by (vm_compute; discriminate).
  rewrite uint32_wrap_exact by (lia || (split; [lia|unfold tmp_limit; vm_compute; discriminate])). rewrite Z.mul_0_l, Z.add_0_l, scan_fast.
  split; [intros e -> | intros t ->]; done.
Qed.

(** ** The decimal loop against PostgreSQL 15's *)

Lemma scan_at_first base tmp s t b rest :
  scan_digits base tmp false s = inr (t, b, rest) → b = false.
Proof.
  revert tmp. induction s as [|c s IH]; intros tmp; cbn [scan_digits]; [by intros [= _ <- _]|].
  destruct (digit_in base c); [case_match; [done|apply IH]|].
  case_decide; [|by intros [= _ <- _]]. simpl. destruct s as [|c' s']; [done|].
  case_bool_decide; [apply IH|done].
Qed.

Lemma scan_mono tmp b s t b' rest :
  (0 ≤ tmp)%Z → scan_digits 10 tmp b s = inr (t, b', rest) → (tmp ≤ t)%Z.
Proof.
  revert tmp b. induction s as [|c s IH]; intros tmp b Ht; cbn [scan_digits]; [by intros [= <- _ _]|].
  rewrite digit_in_10. destruct (digit_of c) as [d|] eqn:Hc.
  - apply digit_of_lt in Hc. destruct (Z.ltb_spec (tmp_limit 10) tmp); [done|].
    rewrite uint32_wrap_exact by lia. intros Hs%IH; lia.
  - case_decide; [|by intros [= <- _ _]].
    destruct (b && _); [done|]. destruct s as [|c' s']; [done|].
    case_bool_decide; [|done]. intros Hs%IH; lia.
Qed.

Lemma no_underscore_cons c s :
  no_underscore (String c s) = true → c ≠ "_"%char ∧ no_underscore s = true.
Proof. cbn. intros [Hc Hs]%andb_prop. split; [|done]. by apply negb_true_iff, bool_decide_eq_false in Hc. Qed.

Lemma scan_to_int4 tmp s t rest :
  no_underscore s = true → (0 ≤ tmp)%Z → scan_digits 10 tmp false s = inr (t, false, rest) →
  (t ≤ 2 ^ 31)%Z → int4_digits (- tmp) s = inr (- t, rest)%Z.
Proof.
  revert tmp. induction s as [|c s IH]; intros tmp Hu Ht; cbn [scan_digits int4_digits];
    [by intros [= <- <-]|].
  apply no_underscore_cons in Hu as [Hc_ Hu]. rewrite digit_in_10.
  destruct (digit_of c) as [d|] eqn:Hc.
  - apply digit_of_lt in Hc. destruct (Z.ltb_spec (tmp_limit 10) tmp); [done|].
    rewrite uint32_wrap_exact by lia. intros Hs Hle.
    pose proof (scan_mono (tmp * 10 + d) _ _ _ _ _ ltac:(lia) Hs).
    replace (- tmp * 10 - d)%Z with (- (tmp * 10 + d))%Z by lia.
    rewrite (proj2 (Z.ltb_ge _ _)) by (unfold int4_min; lia). by apply IH; [|lia|..].
  - rewrite decide_False by done. by intros [= <- <-].
Qed.

Lemma int4_to_scan tmp s acc rest :
  no_underscore s = true → (0 ≤ tmp)%Z → int4_digits (- tmp) s = inr (acc, rest) →
  scan_digits 10 tmp false s = inr (- acc, false, rest)%Z.
Proof.
  revert tmp. induction s as [|c s IH]; intros tmp Hu Ht; cbn [scan_digits int4_digits];
    [intros [= <- <-]; by rewrite Z.opp_involutive|].
  apply no_underscore_cons in Hu as [Hc_ Hu]. rewrite digit_in_10.
  destruct (digit_of c) as [d|] eqn:Hc.
  - apply digit_of_lt in Hc. unfold int4_min.
    destruct (Z.ltb_spec (- tmp * 10 - d) (- 2 ^ 31)); [done|].
    assert (tmp ≤ tmp_limit 10)%Z by (unfold tmp_limit; apply Z.div_le_lower_bound; lia).
    rewrite (proj2 (Z.ltb_ge _ _)) by lia. rewrite uint32_wrap_exact by lia.
    replace (- tmp * 10 - d)%Z with (- (tmp * 10 + d))%Z by lia.
    apply IH; [done|lia].
  - rewrite decide_False by done. intros [= <- <-]. by rewrite Z.opp_involutive.
Qed.

Lemma base_of_10 s : fst (base_of s) = 10%Z → base_of s = (10%Z, s).
Proof. unfold base_of. repeat case_match; repeat case_decide; done. Qed.

Lemma no_underscore_skip s : no_underscore s = true → no_underscore (skip_spaces s) = true.
Proof.
  induction s as [|c s IH]; [done|]. intros Hu. cbn [skip_spaces]. case_match; [|done].
  apply IH. by apply no_underscore_cons in Hu as [].
Qed.

Lemma no_underscore_split s : no_underscore s = true → no_underscore (snd (split_sign s)) = true.
Proof.
  destruct s as [|c s]; [done|]. intros Hu. cbn [split_sign].
  repeat case_decide; simpl; [by apply no_underscore_cons in Hu as []..|done].
Qed.

Lemma finish_big neg t : (2 ^ 31 < t)%Z → finish neg t = inl NumericValueOutOfRange.
Proof.
  intros Ht. unfold finish, int4_max.
  destruct neg; rewrite (proj2 (Z.ltb_lt _ _)) by lia; done.
Qed.

Lemma finish_small neg t :
  (0 ≤ t ≤ 2 ^ 31)%Z →
  finish neg t = if neg then inr (- t)%Z
                 else if decide (- t = int4_min)%Z then inl NumericValueOutOfRange else inr (- - t)%Z.
Proof.
  intros Ht. unfold finish, int4_max, int4_min. rewrite Z.opp_involutive.
  destruct neg; [by rewrite (proj2 (Z.ltb_ge _ _)) by lia|].
  destruct (Z.ltb_spec (2 ^ 31 - 1) t); case_decide; done || lia.
Qed.

(** On text without an underscore that takes the decimal branch, the slow
    path of PostgreSQL 16 accepts exactly what PostgreSQL 15 accepts, with
    the same value. *)
Lemma int4_in16_slow_decimal s :
  no_underscore s = true → fst (base_of (snd (split_sign (skip_spaces s)))) = 10%Z →
  ∀ z, int4_in16_slow s = inr z ↔ int4_in s = inr z.
Proof.
  intros Hu Hb z. unfold int4_in16_slow, int4_in.
  pose proof (no_underscore_split _ (no_underscore_skip _ Hu)) as Hu2.
  destruct (split_sign (skip_spaces s)) as [neg s2]. simpl in Hb, Hu2.
  rewrite (base_of_10 _ Hb). unfold slow_body.
  destruct s2 as [|c r]; [cbn; split; discriminate|].
  apply no_underscore_cons in Hu2 as [Hc_ Hu2].
  cbn [scan_digits starts_with_digit int4_digits]. rewrite digit_in_10.
  destruct (digit_of c) as [d|] eqn:Hc; [|rewrite decide_False by done; cbn; split; discriminate].
  pose proof (digit_of_lt _ _ Hc) as Hd.
  rewrite (proj2 (Z.ltb_ge (tmp_limit 10) 0)) by (vm_compute; discriminate).
  rewrite uint32_wrap_exact by (lia || (split; [lia|unfold tmp_limit; vm_compute; discriminate])).
  rewrite (proj2 (Z.ltb_ge _ int4_min)) by (unfold int4_min; lia). simpl.
  replace (0 * 10 - d)%Z with (- d)%Z by lia. replace (0 * 10 + d)%Z with d by lia.
  destruct (scan_digits 10 d false r) as [e|[[t b] rest]] eqn:Hs.
  - destruct (int4_digits (- d) r) as [e'|[acc rest']] eqn:Hi; [split; discriminate|].
    apply int4_to_scan in Hi; [|done|lia]. congruence.
  - rewrite (scan_at_first _ _ _ _ _ _ Hs) in Hs |- *.
    pose proof (scan_mono d _ _ _ _ _ ltac:(lia) Hs).
    destruct (decide (t ≤ 2 ^ 31)%Z) as [Ht|Ht].
    + rewrite (scan_to_int4 d r t rest Hu2 ltac:(lia) Hs Ht).
      destruct (skip_spaces rest); [|done]. by rewrite finish_small by lia.
    + destruct (int4_digits (- d) r) as [e'|[acc rest']] eqn:Hi.
      * destruct (skip_spaces rest); [rewrite finish_big by lia|]; split; discriminate.
      * pose proof (int4_digits_bounds r (- d) acc rest' ltac:(unfold int4_min; lia) Hi).
        apply int4_to_scan in Hi; [|done|lia]. rewrite Hs in Hi. injection Hi as Hta _.
        unfold int4_min in *. lia.
Qed.

(** The fast path changes nothing: it returns what the slow path would. *)
Lemma int4_in16_fast_slow s : int4_in16 s = int4_in16_slow s.
Proof.
  unfold int4_in16. destruct (fast_sign s) as [neg s1] eqn:Hs.
  destruct s1 as [|c r]; [done|]. destruct (digit_of c) as [d|] eqn:Hc; [|done].
  assert (split_sign (skip_spaces s) = (neg, String c r)) as Hsp
    by (apply split_sign_fast; [done|by rewrite Hc]).
  destruct (slow_body_fast neg c r d Hc) as [H1 H2].
  destruct (fast_digits d r) as [e|[t [|x rest]]] eqn:Hf; [| |done];
    unfold int4_in16_slow; rewrite Hsp.
  - rewrite (base_of_fast c d r Hc); [by rewrite (H1 e eq_refl)|left; by exists e].
  - rewrite (base_of_fast c d r Hc); [by rewrite (H2 t eq_refl)|right; by exists t].
Qed.

(** ** Python's decimals *)

Fixpoint all_digits (s : string) : bool :=
  match s with
  | EmptyString => true
  | String c r => bool_decide (is_Some (digit_of c)) && all_digits r
  end.

Lemma all_digits_pretty_N_go n s : all_digits s = true → all_digits (pretty_N_go n s) = true.
Proof.
  revert s. induction (N.lt_wf_0 n) as [n _ IH]; intros s Hs.
  destruct (decide (n = 0%N)) as [->|Hn]; [done|].
  rewrite pretty_N_go_step by lia. apply IH; [apply N.div_lt; lia|]. simpl. rewrite Hs, andb_true_r.
  apply bool_decide_eq_true. rewrite digit_of_pretty_N_char; [by eexists|apply N.mod_lt; lia].
Qed.

Lemma all_digits_no_underscore s : all_digits s = true → no_underscore s = true.
Proof.
  induction s as [|c s IH]; [done|]. cbn. intros [Hc%bool_decide_eq_true Hs]%andb_prop.
  rewrite IH, andb_true_r by done. apply negb_true_iff, bool_decide_eq_false.
  intros ->. destruct Hc as [? Hc]. discriminate Hc.
Qed.

Lemma all_digits_base s : all_digits s = true → fst (base_of s) = 10%Z.
Proof.
  unfold base_of. destruct s as [|z [|c r]]; [done..|]. cbn [all_digits].
  intros [_ [Hc _]%andb_prop]%andb_prop.
  repeat case_decide; try done;
    repeat match goal with H : _ ∨ _ |- _ => destruct H as [->| ->] end; discriminate Hc.
Qed.

(** The text Python prints of any integer, as the program prints a
    grade, is read the same way by PostgreSQL 16's [int4in], fast path
    included, as by PostgreSQL 15's: the same value is accepted, or both
    refuse it. *)
Theorem int4_in16_py_str z v :
  int4_in16 (py_str (VInt z)) = inr v ↔ int4_in (py_str (VInt z)) = inr v.
Proof.
  rewrite int4_in16_fast_slow. cbn [py_str].
  destruct z as [|p|p]; [vm_compute; done| |].
  - change (pretty (Z.pos p)) with (pretty_N_go (Npos p) "").
    pose proof (all_digits_pretty_N_go (Npos p) "" eq_refl) as Hd.
    destruct (pretty_N_shape (Npos p) ltac:(done)) as (H1 & H2 & _).
    apply int4_in16_slow_decimal; [by apply all_digits_no_underscore|].
    rewrite H1, H2. by apply all_digits_base.
  - change (pretty (Z.neg p)) with (String "-" (pretty_N_go (Npos p) "")).
    pose proof (all_digits_pretty_N_go (Npos p) "" eq_refl) as Hd.
    apply int4_in16_slow_decimal; [cbn; by apply all_digits_no_underscore|].
    by apply all_digits_base.
Qed.

(** ** Witnesses *)

(** What a grade typed with a base prefix or an underscore becomes: a
    number from PostgreSQL 16 on, an error before. *)
Lemma int4_in16_accepts_new_forms :
  int4_in16 "0x5F" = inr 95%Z ∧ int4_in "0x5F" = inl InvalidTextRepresentation ∧
  int4_in16 "1_000" = inr 1000%Z ∧ int4_in "1_000" = inl InvalidTextRepresentation.
Proof. vm_compute. repeat split. Qed.

(** On a digit run overflowing into a letter the two versions fail with
    different SQLSTATEs (both a [DataError] in the driver). *)
Lemma int4_in16_error_code_differs :
  int4_in16 "2147483649x" = inl InvalidTextRepresentation ∧
  int4_in "2147483649x" = inl NumericValueOutOfRange.
Proof. vm_compute. split; reflexivity. Qed.

End Int4v16.
