(* ===== verification/Store.v ===== *)
(** * The relational store: three tables, INSERT, and SELECT with fetchone

    The six functions of src/hackbright.py each issue one parameterised
    statement against [students], [projects] or [grades].  This file models
    the tables as lists of rows in storage (heap) order, the schema as the
    column types and the constraints the database may declare, the three
    INSERT statements (coercion of each parameter, then the constraints),
    and [cursor.fetchone()] over a [WHERE col = :param] query.

    SQL gives no order to the rows of a SELECT without ORDER BY.  The class
    [ScanOrder] states what [fetchone] may rely on: the rows are visited in
    some permutation of storage order.  [heap_order] is the instance that
    visits them in storage order, as a sequential scan of a table that is
    only appended to does. *)

From S2P Require Import Prelude SqlValue.

Module Store.
Import SqlValue.

Record Student := mkStudent { first_name : SqlVal; last_name : SqlVal; github : SqlVal }.
Record Project := mkProject { title : SqlVal; description : SqlVal; max_grade : SqlVal }.
Record Grade := mkGrade { student_github : SqlVal; project_title : SqlVal; grade : SqlVal }.

#[export] Instance Student_eq_dec : EqDecision Student.
Proof. solve_decision. Defined.
#[export] Instance Project_eq_dec : EqDecision Project.
Proof. solve_decision. Defined.
#[export] Instance Grade_eq_dec : EqDecision Grade.
Proof. solve_decision. Defined.

Record DB := mkDB { students : list Student; projects : list Project; grades : list Grade }.

(** The column types of [students(first_name, last_name, github)],
    [projects(title, description, max_grade)] and
    [grades(student_github, project_title, grade)], and which constraints
    the database declares: UNIQUE on [students.github], on
    [projects.title], on [grades(student_github, project_title)], and the
    foreign keys from [grades] to [students] and [projects]. *)
Record Schema := mkSchema {
  ty_first_name : ColTy; ty_last_name : ColTy; ty_github : ColTy;
  ty_title : ColTy; ty_description : ColTy; ty_max_grade : ColTy;
  ty_student_github : ColTy; ty_project_title : ColTy; ty_grade : ColTy;
  uq_github : bool; uq_title : bool; uq_grade : bool;
  fk_grade_student : bool; fk_grade_project : bool }.

(** The schema of the Hackbright project-tracker database the program
    connects to ([postgresql:///hackbright], line 17): [varchar(30)] names,
    [text] descriptions, [integer] grades, and no declared UNIQUE or
    FOREIGN KEY constraint.  The schema file is not part of the repository. *)
Definition hackbright_schema : Schema := {|
  ty_first_name := TText (Some 30); ty_last_name := TText (Some 30);
  ty_github := TText (Some 30);
  ty_title := TText (Some 30); ty_description := TText None; ty_max_grade := TInt;
  ty_student_github := TText (Some 30); ty_project_title := TText (Some 30);
  ty_grade := TInt;
  uq_github := false; uq_title := false; uq_grade := false;
  fk_grade_student := false; fk_grade_project := false |}.

(** The same tables with every constraint the program could meet
    declared: UNIQUE accounts, titles and (account, title) pairs, and both
    foreign keys of [grades]. *)
Definition strict_schema : Schema := {|
  ty_first_name := TText (Some 30); ty_last_name := TText (Some 30);
  ty_github := TText (Some 30);
  ty_title := TText (Some 30); ty_description := TText None; ty_max_grade := TInt;
  ty_student_github := TText (Some 30); ty_project_title := TText (Some 30);
  ty_grade := TInt;
  uq_github := true; uq_title := true; uq_grade := true;
  fk_grade_student := true; fk_grade_project := true |}.

(** ** fetchone *)

Class ScanOrder := {
  scan {A} : list A → list A;
  scan_perm {A} (l : list A) : scan l ≡ₚ l }.

#[export] Program Instance heap_order : ScanOrder := {| scan A l := l |}.
Next Obligation. done. Qed.

(** [cursor.fetchone()]: the first row of the result, [None] when it is
    empty. *)
Definition fetchone `{SO : ScanOrder} {A} (P : A → Prop) `{∀ x, Decision (P x)}
    (rows : list A) : option A :=
  head (filter P (scan rows)).

(** What a caller of [fetchone] may assume, whatever the scan order. *)
Definition fetch_spec {A} (P : A → Prop) (rows : list A) (r : option A) : Prop :=
  match r with
  | None => ∀ x, x ∈ rows → ¬ P x
  | Some x => x ∈ rows ∧ P x
  end.

(** ** fetchone against its specification *)

Section Fetch.
Context `{SO : ScanOrder} {A : Type} (P : A → Prop) `{∀ x, Decision (P x)}.

(** Whatever the scan order, [fetchone] returns [None] exactly when
    no row matches, and otherwise one of the matching rows. *)
Theorem fetchone_spec (rows : list A) : fetch_spec P rows (fetchone P rows).
Proof.
  unfold fetchone, fetch_spec. destruct (head (filter P (scan rows))) as [x|] eqn:E.
  - apply head_filter_Some in E as [Hx HP]. split; [|done].
    by rewrite <-(scan_perm rows).
  - rewrite head_filter_None in E. intros x Hx. apply E. by rewrite (scan_perm rows).
Qed.

Lemma fetchone_None (rows : list A) :
  (∀ x, x ∈ rows → ¬ P x) → fetchone P rows = None.
Proof. intros Hn. unfold fetchone. apply head_filter_None. intros x. rewrite (scan_perm rows). auto. Qed.

Lemma fetchone_Some_inv (rows : list A) x : fetchone P rows = Some x → x ∈ rows ∧ P x.
Proof. unfold fetchone. intros [Hx HP]%head_filter_Some. by rewrite <-(scan_perm rows). Qed.

Lemma fetchone_None_inv (rows : list A) : fetchone P rows = None → ∀ x, x ∈ rows → ¬ P x.
Proof. unfold fetchone. rewrite head_filter_None. intros E x Hx. apply E. by rewrite (scan_perm rows). Qed.

Lemma fetchone_unique (rows : list A) x :
  x ∈ rows → P x → (∀ y, y ∈ rows → P y → y = x) → fetchone P rows = Some x.
Proof.
  intros Hx HP Hu. destruct (fetchone P rows) as [y|] eqn:E.
  - apply fetchone_Some_inv in E as [??]. f_equal. auto.
  - exfalso. eapply fetchone_None_inv; eauto.
Qed.

Lemma fetchone_snoc_fresh (rows : list A) x :
  P x → (∀ y, y ∈ rows → ¬ P y) → fetchone P (rows ++ [x]) = Some x.
Proof.
  intros Hx Hn. apply fetchone_unique; [by apply elem_of_app; right; left|done|].
  intros y [Hy|Hy]%elem_of_app Hp; [by destruct (Hn y)|by apply list_elem_of_singleton].
Qed.

Lemma fetchone_Some_exists (rows : list A) x :
  x ∈ rows → P x → ∃ y, fetchone P rows = Some y ∧ y ∈ rows ∧ P y.
Proof.
  intros Hx HP. destruct (fetchone P rows) as [y|] eqn:E.
  - apply fetchone_Some_inv in E as [??]. by exists y.
  - exfalso. eapply fetchone_None_inv; eauto.
Qed.
End Fetch.

Lemma fetchone_heap_snoc {A} (P : A → Prop) `{∀ x, Decision (P x)} rows x y :
  fetchone (SO := heap_order) P rows = Some y →
  fetchone (SO := heap_order) P (rows ++ [x]) = Some y.
Proof. unfold fetchone; simpl. rewrite head_filter_snoc. by intros ->. Qed.

(** ** The schema invariant *)

Definition student_typed (sch : Schema) (r : Student) : Prop :=
  val_has_ty (ty_first_name sch) (first_name r) ∧ val_has_ty (ty_last_name sch) (last_name r)
  ∧ val_has_ty (ty_github sch) (github r).
Definition project_typed (sch : Schema) (r : Project) : Prop :=
  val_has_ty (ty_title sch) (title r) ∧ val_has_ty (ty_description sch) (description r)
  ∧ val_has_ty (ty_max_grade sch) (max_grade r).
Definition grade_typed (sch : Schema) (r : Grade) : Prop :=
  val_has_ty (ty_student_github sch) (student_github r)
  ∧ val_has_ty (ty_project_title sch) (project_title r) ∧ val_has_ty (ty_grade sch) (grade r).

Definition grade_key (x : Grade) : SqlVal * SqlVal := (student_github x, project_title x).

(** Every row has its columns' types, and every declared constraint holds. *)
Record wf_db (sch : Schema) (db : DB) : Prop := {
  wf_students : Forall (student_typed sch) (students db);
  wf_projects : Forall (project_typed sch) (projects db);
  wf_grades : Forall (grade_typed sch) (grades db);
  wf_uq_github : uq_github sch = true → NoDup (github <$> students db);
  wf_uq_title : uq_title sch = true → NoDup (title <$> projects db);
  wf_uq_grade : uq_grade sch = true → NoDup (grade_key <$> grades db);
  wf_fk_student : fk_grade_student sch = true →
    ∀ x, x ∈ grades db → student_github x ∈ github <$> students db;
  wf_fk_project : fk_grade_project sch = true →
    ∀ x, x ∈ grades db → project_title x ∈ title <$> projects db }.

Definition empty_db : DB := mkDB [] [] [].

Lemma wf_empty_db sch : wf_db sch empty_db.
Proof. constructor; simpl; intros; try constructor; set_solver. Qed.

(** ** INSERT *)

Section Insert.
Context (sch : Schema).

Definition key_taken {A} (key : A → SqlVal) (v : SqlVal) (rows : list A) : bool :=
  bool_decide (Exists (λ r, key r = v) rows).

(** [INSERT INTO students (first_name, last_name, github) VALUES ...] *)
Definition insert_student (f l g : string) (db : DB) : DbError + DB :=
  f' ← coerce_store (ty_first_name sch) f;
  l' ← coerce_store (ty_last_name sch) l;
  g' ← coerce_store (ty_github sch) g;
  if uq_github sch && key_taken github g' (students db) then inl UniqueViolation
  else inr (mkDB (students db ++ [mkStudent f' l' g']) (projects db) (grades db)).

(** [INSERT INTO projects(title, description, max_grade) VALUES ...] *)
Definition insert_project (t d m : string) (db : DB) : DbError + DB :=
  t' ← coerce_store (ty_title sch) t;
  d' ← coerce_store (ty_description sch) d;
  m' ← coerce_store (ty_max_grade sch) m;
  if uq_title sch && key_taken title t' (projects db) then inl UniqueViolation
  else inr (mkDB (students db) (projects db ++ [mkProject t' d' m']) (grades db)).

(** [INSERT INTO grades(student_github, project_title, grade) VALUES ...]:
    the unique index is checked when the row is inserted, the foreign
    keys at the end of the statement. *)
Definition insert_grade (g t gr : string) (db : DB) : DbError + DB :=
  g' ← coerce_store (ty_student_github sch) g;
  t' ← coerce_store (ty_project_title sch) t;
  gr' ← coerce_store (ty_grade sch) gr;
  if uq_grade sch &&
     bool_decide (Exists (λ x, student_github x = g' ∧ project_title x = t') (grades db))
  then inl UniqueViolation
  else if fk_grade_student sch && negb (key_taken github g' (students db))
  then inl ForeignKeyViolation
  else if fk_grade_project sch && negb (key_taken title t' (projects db))
  then inl ForeignKeyViolation
  else inr (mkDB (students db) (projects db) (grades db ++ [mkGrade g' t' gr'])).

(** ** SELECT ... WHERE col = :param, then fetchone *)

Context `{SO : ScanOrder}.

(** [SELECT first_name, last_name, github FROM students WHERE github = :github] *)
Definition select_student (g : string) (db : DB) : DbError + option Student :=
  v ← coerce_cmp (ty_github sch) g;
  inr (fetchone (λ s, github s = v) (students db)).

(** [SELECT title, description, max_grade FROM projects WHERE title = :title] *)
Definition select_project (t : string) (db : DB) : DbError + option Project :=
  v ← coerce_cmp (ty_title sch) t;
  inr (fetchone (λ p, title p = v) (projects db)).

(** [SELECT grade FROM grades WHERE student_github = :student_github AND
    project_title = :project_title] *)
Definition select_grade (g t : string) (db : DB) : DbError + option Grade :=
  vg ← coerce_cmp (ty_student_github sch) g;
  vt ← coerce_cmp (ty_project_title sch) t;
  inr (fetchone (λ x, student_github x = vg ∧ project_title x = vt) (grades db)).
End Insert.

(** ** What a successful INSERT does *)

Section InsertSpec.
Context (sch : Schema).

Lemma insert_student_inr f l g db db' :
  insert_student sch f l g db = inr db' ↔
  ∃ f' l' g', coerce_store (ty_first_name sch) f = inr f'
    ∧ coerce_store (ty_last_name sch) l = inr l' ∧ coerce_store (ty_github sch) g = inr g'
    ∧ (uq_github sch = true → g' ∉ github <$> students db)
    ∧ db' = mkDB (students db ++ [mkStudent f' l' g']) (projects db) (grades db).
Proof.
  unfold insert_student, key_taken.
  destruct (coerce_store _ f) as [|f'] eqn:Hf; simpl; [naive_solver|].
  destruct (coerce_store _ l) as [|l'] eqn:Hl; simpl; [naive_solver|].
  destruct (coerce_store _ g) as [|g'] eqn:Hg; simpl; [naive_solver|].
  destruct (uq_github sch); simpl; [|naive_solver].
  case_bool_decide_as Hk; rewrite Exists_key in Hk; naive_solver.
Qed.
Lemma insert_project_inr t d m db db' :
  insert_project sch t d m db = inr db' ↔
  ∃ t' d' m', coerce_store (ty_title sch) t = inr t'
    ∧ coerce_store (ty_description sch) d = inr d' ∧ coerce_store (ty_max_grade sch) m = inr m'
    ∧ (uq_title sch = true → t' ∉ title <$> projects db)
    ∧ db' = mkDB (students db) (projects db ++ [mkProject t' d' m']) (grades db).
Proof.
  unfold insert_project, key_taken.
  destruct (coerce_store _ t) as [|t'] eqn:Ht; simpl; [naive_solver|].
  destruct (coerce_store _ d) as [|d'] eqn:Hd; simpl; [naive_solver|].
  destruct (coerce_store _ m) as [|m'] eqn:Hm; simpl; [naive_solver|].
  destruct (uq_title sch); simpl; [|naive_solver].
  case_bool_decide_as Hk; rewrite Exists_key in Hk; naive_solver.
Qed.

Lemma grade_key_exists g t (l : list Grade) :
  Exists (λ x, student_github x = g ∧ project_title x = t) l ↔ (g, t) ∈ grade_key <$> l.
Proof.
  rewrite <-Exists_key, !Exists_exists. unfold grade_key. naive_solver.
Qed.

Lemma insert_grade_inr g t gr db db' :
  insert_grade sch g t gr db = inr db' ↔
  ∃ g' t' gr', coerce_store (ty_student_github sch) g = inr g'
    ∧ coerce_store (ty_project_title sch) t = inr t' ∧ coerce_store (ty_grade sch) gr = inr gr'
    ∧ (uq_grade sch = true → (g', t') ∉ grade_key <$> grades db)
    ∧ (fk_grade_student sch = true → g' ∈ github <$> students db)
    ∧ (fk_grade_project sch = true → t' ∈ title <$> projects db)
    ∧ db' = mkDB (students db) (projects db) (grades db ++ [mkGrade g' t' gr']).
Proof.
  unfold insert_grade, key_taken.
  destruct (coerce_store _ g) as [|g'] eqn:Hg; simpl; [naive_solver|].
  destruct (coerce_store _ t) as [|t'] eqn:Ht; simpl; [naive_solver|].
  destruct (coerce_store _ gr) as [|gr'] eqn:Hgr; simpl; [naive_solver|].
  destruct (uq_grade sch); simpl;
    [case_bool_decide_as Hu; rewrite grade_key_exists in Hu; simpl; [naive_solver|]|];
  (destruct (fk_grade_student sch); simpl;
    [case_bool_decide_as Hs; rewrite Exists_key in Hs; simpl; [|naive_solver]|]);
  (destruct (fk_grade_project sch); simpl;
    [case_bool_decide_as Hp; rewrite Exists_key in Hp; simpl; naive_solver|naive_solver]).
Qed.

(** Rows already in a table keep their keys when a row is appended. *)
Lemma elem_of_fmap_snoc {A B} (f : A → B) (l : list A) x y :
  y ∈ f <$> l → y ∈ f <$> l ++ [x].
Proof. rewrite fmap_snoc, elem_of_app. auto. Qed.

Lemma insert_student_wf f l g db db' :
  wf_db sch db → insert_student sch f l g db = inr db' → wf_db sch db'.
Proof.
  intros [] (f'&l'&g'&Hf&Hl&Hg&Hu&->)%insert_student_inr.
  constructor; simpl; auto using elem_of_fmap_snoc.
  - apply Forall_app. split; [done|]. repeat constructor; eauto using coerce_store_typed.
  - intros Hq. apply NoDup_fmap_snoc. auto.
Qed.

Lemma insert_project_wf t d m db db' :
  wf_db sch db → insert_project sch t d m db = inr db' → wf_db sch db'.
Proof.
  intros [] (t'&d'&m'&Ht&Hd&Hm&Hu&->)%insert_project_inr.
  constructor; simpl; auto using elem_of_fmap_snoc.
  - apply Forall_app. split; [done|]. repeat constructor; eauto using coerce_store_typed.
  - intros Hq. apply NoDup_fmap_snoc. auto.
Qed.

Lemma insert_grade_wf g t gr db db' :
  wf_db sch db → insert_grade sch g t gr db = inr db' → wf_db sch db'.
Proof.
  intros [] (g'&t'&gr'&Hg&Ht&Hgr&Hu&Hs&Hp&->)%insert_grade_inr.
  constructor; simpl; auto.
  - apply Forall_app. split; [done|]. repeat constructor; eauto using coerce_store_typed.
  - intros Hq. apply NoDup_fmap_snoc. auto.
  - intros Hq x [Hx|Hx]%elem_of_app; [auto|]. apply list_elem_of_singleton in Hx as ->. auto.
  - intros Hq x [Hx|Hx]%elem_of_app; [auto|]. apply list_elem_of_singleton in Hx as ->. auto.
Qed.

End InsertSpec.

(** ** Tables only grow *)

(** [d1] is [d2] before some rows were appended to its tables. *)
Definition db_le (d1 d2 : DB) : Prop :=
  students d1 `prefix_of` students d2 ∧ projects d1 `prefix_of` projects d2
  ∧ grades d1 `prefix_of` grades d2.

#[export] Instance db_le_preorder : PreOrder db_le.
Proof.
  split.
  - intros d. split_and!; reflexivity.
  - intros d1 d2 d3 (?&?&?) (?&?&?). split_and!; by etrans.
Qed.

Section Grows.
Context (sch : Schema).

Lemma insert_student_grows f l g db db' : insert_student sch f l g db = inr db' → db_le db db'.
Proof.
  intros (?&?&?&_&_&_&_&->)%insert_student_inr. split_and!; simpl; [by apply prefix_app_r|done..].
Qed.

Lemma insert_project_grows t d m db db' : insert_project sch t d m db = inr db' → db_le db db'.
Proof.
  intros (?&?&?&_&_&_&_&->)%insert_project_inr. split_and!; simpl; [done|by apply prefix_app_r|done].
Qed.

Lemma insert_grade_grows g t gr db db' : insert_grade sch g t gr db = inr db' → db_le db db'.
Proof.
  intros (?&?&?&_&_&_&_&_&_&->)%insert_grade_inr. split_and!; simpl; [done|done|by apply prefix_app_r].
Qed.
End Grows.

End Store.
