(* ===== verification/Session.v ===== *)
(** * The Python process: exceptions, the database session and stdout

    src/hackbright.py runs with one SQLAlchemy session ([db.session]) for the
    whole process.  A statement runs in the session's open transaction,
    [db.session.commit()] makes it durable, and a fatal exception ends the
    process, after which the open transaction is rolled back.  This file
    holds the world the program acts on (committed state, session state,
    what has been written to stdout), a state and exception monad [M] over
    it, and the primitives the code calls: [print], [input]'s prompt,
    [db.session.execute], [commit], list indexing and tuple unpacking. *)

From S2P Require Import Prelude SqlValue Store.

Module Session.
Import SqlValue Store.

(** The exceptions the program can raise; none is caught. *)
Inductive PyExc :=
| IndexError                       (** [list index out of range] *)
| UnpackError (expected got : nat) (** [ValueError]: wrong number of values to unpack *)
| NoneSubscript                    (** [TypeError: 'NoneType' object is not subscriptable] *)
| EOFError                         (** [input()] at end of input *)
| DbExc (e : DbError).             (** psycopg2's [DataError] or [IntegrityError] *)

#[export] Instance PyExc_eq_dec : EqDecision PyExc.
Proof. solve_decision. Defined.

Record World := mkWorld { committed : DB; session : DB; stdout : list string }.

Inductive Outcome (A : Type) :=
| Done (a : A) (w : World)
| Raised (e : PyExc) (w : World).
Arguments Done {A}.
Arguments Raised {A}.

Definition M (A : Type) : Type := World → Outcome A.

#[export] Instance M_ret : MRet M := λ A a w, Done a w.
#[export] Instance M_bind : MBind M := λ A B f m w,
  match m w with
  | Done a w' => f a w'
  | Raised e w' => Raised e w'
  end.

Definition raise {A} (e : PyExc) : M A := λ w, Raised e w.

(** The world after [s] is written to stdout. *)
Definition emit (w : World) (s : string) : World :=
  mkWorld (committed w) (session w) (stdout w ++ [s]).

Definition write (s : string) : M unit := λ w, Done tt (emit w s).

Definition nl : string := String "010" "".

(** [print(s)] *)
Definition print (s : string) : M unit := write (s +:+ nl).

(** [db.session.execute(QUERY, params)] for a SELECT, then [fetchone()]. *)
Definition execute {A} (q : DB → DbError + A) : M A :=
  λ w, match q (session w) with
       | inl e => Raised (DbExc e) w
       | inr a => Done a w
       end.

(** [db.session.execute(QUERY, params)] for an INSERT. *)
Definition execute_write (q : DB → DbError + DB) : M unit :=
  λ w, match q (session w) with
       | inl e => Raised (DbExc e) w
       | inr db => Done tt (mkWorld (committed w) db (stdout w))
       end.

(** [db.session.commit()] *)
Definition commit : M unit := λ w, Done tt (mkWorld (session w) (session w) (stdout w)).

(** [db.session.close()]: what was not committed is rolled back. *)
Definition close : M unit := λ w, Done tt (mkWorld (committed w) (committed w) (stdout w)).

(** ** Python list operations *)

(** [l[i]] *)
Definition py_index {A} (l : list A) (i : nat) : M A :=
  match l !! i with
  | Some x => mret x
  | None => raise IndexError
  end.

(** [l[-1]] *)
Definition py_last {A} (l : list A) : M A :=
  match last l with
  | Some x => mret x
  | None => raise IndexError
  end.

(** [l[1:]] and [l[1:-1]] *)
Definition py_tail {A} (l : list A) : list A := drop 1 l.
Definition py_middle {A} (l : list A) : list A := drop 1 (take (length l - 1) l).

(** [a, b = l] and [a, b, c = l] *)
Definition unpack2 {A} (l : list A) : M (A * A) :=
  match l with
  | [a; b] => mret (a, b)
  | _ => raise (UnpackError 2 (length l))
  end.
Definition unpack3 {A} (l : list A) : M (A * A * A) :=
  match l with
  | [a; b; c] => mret (a, b, c)
  | _ => raise (UnpackError 3 (length l))
  end.

(** ** Running a computation *)

Lemma bind_Done {A B} (m : M A) (f : A → M B) w a w' :
  m w = Done a w' → (m ≫= f) w = f a w'.
Proof. intros H. unfold mbind, M_bind. by rewrite H. Qed.

Lemma bind_Raised {A B} (m : M A) (f : A → M B) w e w' :
  m w = Raised e w' → (m ≫= f) w = Raised e w'.
Proof. intros H. unfold mbind, M_bind. by rewrite H. Qed.

Lemma ret_bind {A B} (a : A) (f : A → M B) w : (mret a ≫= f) w = f a w.
Proof. done. Qed.

Lemma execute_inr {A} (q : DB → DbError + A) w a :
  q (session w) = inr a → execute q w = Done a w.
Proof. intros H. unfold execute. by rewrite H. Qed.

Lemma execute_inl {A} (q : DB → DbError + A) w e :
  q (session w) = inl e → execute q w = Raised (DbExc e) w.
Proof. intros H. unfold execute. by rewrite H. Qed.

Lemma execute_write_inr q w db :
  q (session w) = inr db → execute_write q w = Done tt (mkWorld (committed w) db (stdout w)).
Proof. intros H. unfold execute_write. by rewrite H. Qed.

Lemma execute_write_inl q w e :
  q (session w) = inl e → execute_write q w = Raised (DbExc e) w.
Proof. intros H. unfold execute_write. by rewrite H. Qed.

(** ** Invariants of computations that may raise *)

Definition outcome_world {A} (o : Outcome A) : World :=
  match o with
  | Done _ w | Raised _ w => w
  end.

Section Keeps.
Context (I : World → Prop) (R : World → World → Prop) `{!PreOrder R}.

(** [m] keeps [I] and moves forward along [R], whether it returns or
    raises. *)
Definition keeps {A} (m : M A) : Prop :=
  ∀ w, I w → I (outcome_world (m w)) ∧ R w (outcome_world (m w)).

Lemma keeps_ret {A} (a : A) : keeps (mret a).
Proof. intros w Hw. split; [done|reflexivity]. Qed.

Lemma keeps_raise {A} e : keeps (raise (A := A) e).
Proof. intros w Hw. split; [done|reflexivity]. Qed.

Lemma keeps_bind {A B} (m : M A) (f : A → M B) :
  keeps m → (∀ a, keeps (f a)) → keeps (m ≫= f).
Proof.
  intros Hm Hf w Hw. unfold mbind, M_bind.
  destruct (Hm w Hw) as [HI HR]. destruct (m w) as [a w'|e w']; simpl in *; [|done].
  destruct (Hf a w' HI). split; [done|]. by trans w'.
Qed.

Lemma keeps_execute {A} (q : DB → DbError + A) : keeps (execute q).
Proof. intros w Hw. unfold execute. by destruct (q (session w)); (split; [done|reflexivity]). Qed.

Lemma keeps_py_index {A} (l : list A) i : keeps (py_index l i).
Proof. unfold py_index. destruct (l !! i); [apply keeps_ret|apply keeps_raise]. Qed.

Lemma keeps_py_last {A} (l : list A) : keeps (py_last l).
Proof. unfold py_last. destruct (last l); [apply keeps_ret|apply keeps_raise]. Qed.

Lemma keeps_unpack2 {A} (l : list A) : keeps (unpack2 l).
Proof. unfold unpack2. repeat case_match; auto using keeps_ret, keeps_raise. Qed.

Lemma keeps_unpack3 {A} (l : list A) : keeps (unpack3 l).
Proof. unfold unpack3. repeat case_match; auto using keeps_ret, keeps_raise. Qed.
End Keeps.

#[export] Hint Resolve keeps_ret keeps_raise keeps_execute keeps_py_index keeps_py_last
  keeps_unpack2 keeps_unpack3 : hb.

(** Prove [keeps] of a composite computation from its parts. *)
Ltac keeps_step :=
  first [ solve [eauto with hb]
      | apply keeps_bind; [exact _| |intros ?]
      | apply keeps_bind; [|intros ?]
      | progress (repeat case_match)
      | progress cbv zeta
      | (apply keeps_ret || apply keeps_raise || apply keeps_execute || apply keeps_py_index
         || apply keeps_py_last || apply keeps_unpack2 || apply keeps_unpack3); try exact _ ].

End Session.
