(* ===== verification/Ops.v ===== *)
(** * The six data-access functions of src/hackbright.py

    Each function issues one statement through [db.session.execute], reads
    the first row with [fetchone()] or commits, and prints a message.  They
    are written here in the monad [Session.M], in the order of the source
    (lines 23-126), for a schema [sch] and any [ScanOrder]. *)

From S2P Require Import Prelude PyStr SqlValue Store Session.

Module Ops.
Import PyStr SqlValue Store Session.

(** The fixed messages of lines 56, 90, 124 and 126. *)
Definition msg_inserted : string := "Data has been inserted succesfully!".
Definition msg_no_grade : string :=
  "This student does not have a grade yet. Please insert a grade using the 'grade' command.".
Definition msg_project_ok : string := "Congratulations! Your project was successfully inserted!".
Definition msg_project_failed : string :=
  "Your project was not successfully inserted. Please try again!".

Section Handlers.
Context (sch : Schema) `{SO : ScanOrder}.

(** The format string of line 36. *)
Definition student_info (r : Student) : string :=
  "Student: " +:+ py_str (first_name r) +:+ " " +:+ py_str (last_name r)
  +:+ nl +:+ "GitHub account: " +:+ py_str (Store.github r).

(** [get_student_by_github], lines 23-36: [row[0]] on [None] raises. *)
Definition get_student_by_github (github : string) : M unit :=
  row ← execute (select_student sch github);
  match row with
  | None => raise NoneSubscript
  | Some r => print (student_info r)
  end.

(** [make_new_student], lines 39-57: the message is printed before the
    commit. *)
Definition make_new_student (first_name last_name github : string) : M unit :=
  execute_write (insert_student sch first_name last_name github);;
  print msg_inserted;;
  commit.

(** [get_project_by_title], lines 61-74: the row is returned. *)
Definition get_project_by_title (title : string) : M (option Project) :=
  execute (select_project sch title).

(** [get_grade_by_github_title], lines 76-93. *)
Definition get_grade_by_github_title (github title : string) : M unit :=
  row ← execute (select_grade sch github title);
  match row with
  | None => print msg_no_grade
  | Some r => print ("Grades is " +:+ py_str (grade r) +:+ " for " +:+ title)
  end.

(** [assign_grade], lines 97-107: commit, then the message. *)
Definition assign_grade (github title grade : string) : M unit :=
  execute_write (insert_grade sch github title grade);;
  commit;;
  print (github +:+ "'s project " +:+ title +:+ "'s grade is " +:+ grade
         +:+ " and has succesfully been insterted!").

(** [add_project], lines 110-126: insert, commit, and read the project
    back by its title. *)
Definition add_project (title description max_grade : string) : M unit :=
  execute_write (insert_project sch title description max_grade);;
  commit;;
  row ← get_project_by_title title;
  match row with
  | None => print msg_project_failed
  | Some _ => print msg_project_ok
  end.

End Handlers.

(** ** Each operation on each of its branches *)

Section OpsSpec.
Context (sch : Schema) `{SO : ScanOrder}.

Lemma get_student_found g w r :
  select_student sch g (session w) = inr (Some r) →
  get_student_by_github sch g w = Done tt (emit w (student_info r +:+ nl)).
Proof. intros H. unfold get_student_by_github. by erewrite bind_Done by (by apply execute_inr). Qed.

Lemma get_student_missing g w :
  select_student sch g (session w) = inr None →
  get_student_by_github sch g w = Raised NoneSubscript w.
Proof. intros H. unfold get_student_by_github. by erewrite bind_Done by (by apply execute_inr). Qed.

Lemma make_new_student_inr f l g w db :
  insert_student sch f l g (session w) = inr db →
  make_new_student sch f l g w = Done tt (mkWorld db db (stdout w ++ [msg_inserted +:+ nl])).
Proof. intros H. unfold make_new_student. by erewrite bind_Done by (by apply execute_write_inr). Qed.

Lemma make_new_student_inl f l g w e :
  insert_student sch f l g (session w) = inl e →
  make_new_student sch f l g w = Raised (DbExc e) w.
Proof. intros H. unfold make_new_student. by erewrite bind_Raised by (by apply execute_write_inl). Qed.

Lemma get_grade_found g t w r :
  select_grade sch g t (session w) = inr (Some r) →
  get_grade_by_github_title sch g t w =
    Done tt (emit w (("Grades is " +:+ py_str (grade r) +:+ " for " +:+ t) +:+ nl)).
Proof. intros H. unfold get_grade_by_github_title. by erewrite bind_Done by (by apply execute_inr). Qed.

Lemma get_grade_missing g t w :
  select_grade sch g t (session w) = inr None →
  get_grade_by_github_title sch g t w = Done tt (emit w (msg_no_grade +:+ nl)).
Proof. intros H. unfold get_grade_by_github_title. by erewrite bind_Done by (by apply execute_inr). Qed.

Lemma assign_grade_inr g t gr w db :
  insert_grade sch g t gr (session w) = inr db →
  assign_grade sch g t gr w =
    Done tt (mkWorld db db (stdout w ++ [(g +:+ "'s project " +:+ t +:+ "'s grade is " +:+ gr
                                        +:+ " and has succesfully been insterted!") +:+ nl])).
Proof. intros H. unfold assign_grade. by erewrite bind_Done by (by apply execute_write_inr). Qed.

Lemma assign_grade_inl g t gr w e :
  insert_grade sch g t gr (session w) = inl e → assign_grade sch g t gr w = Raised (DbExc e) w.
Proof. intros H. unfold assign_grade. by erewrite bind_Raised by (by apply execute_write_inl). Qed.

Lemma add_project_inr t d m w db :
  insert_project sch t d m (session w) = inr db →
  add_project sch t d m w =
    match select_project sch t db with
    | inl e => Raised (DbExc e) (mkWorld db db (stdout w))
    | inr None => Done tt (mkWorld db db (stdout w ++ [msg_project_failed +:+ nl]))
    | inr (Some _) => Done tt (mkWorld db db (stdout w ++ [msg_project_ok +:+ nl]))
    end.
Proof.
  intros H. unfold add_project. erewrite bind_Done by (by apply execute_write_inr).
  cbn. unfold get_project_by_title, execute, mbind, M_bind. simpl.
  by destruct (select_project sch t db) as [|[]].
Qed.

Lemma add_project_inl t d m w e :
  insert_project sch t d m (session w) = inl e → add_project sch t d m w = Raised (DbExc e) w.
Proof. intros H. unfold add_project. by erewrite bind_Raised by (by apply execute_write_inl). Qed.
End OpsSpec.

(** ** Writing then reading through the store (spec, section 8) *)

Section RoundTrips.
Context (sch : Schema) `{SO : ScanOrder}.

(** C1: Create Student then Lookup Student, for a github account not in
    the table and values that fit their columns, prints the names that
    were given; both tables end committed with the one new row. *)
Theorem new_student_then_lookup f l g w :
  text_fits (ty_first_name sch) f → text_fits (ty_last_name sch) l →
  text_fits (ty_github sch) g → VText g ∉ Store.github <$> students (session w) →
  (make_new_student sch f l g;; get_student_by_github sch g) w =
    let db := mkDB (students (session w) ++ [mkStudent (VText f) (VText l) (VText g)])
                   (projects (session w)) (grades (session w)) in
    Done tt (mkWorld db db (stdout w ++ [msg_inserted +:+ nl;
      ("Student: " +:+ f +:+ " " +:+ l +:+ nl +:+ "GitHub account: " +:+ g) +:+ nl])).
Proof.
  intros Hf Hl Hg Hfresh.
  erewrite bind_Done; last first.
  { apply make_new_student_inr, insert_student_inr.
    rewrite !text_fits_store by done. naive_solver. }
  rewrite get_student_found with (r := mkStudent (VText f) (VText l) (VText g)).
  - unfold emit. simpl. by rewrite <-app_assoc.
  - unfold select_student. simpl. rewrite text_fits_cmp by done. simpl.
    f_equal. apply fetchone_snoc_fresh; [done|].
    intros y Hy Heq. apply Hfresh, list_elem_of_fmap. eauto.
Qed.

(** C2: Create Project then Lookup Project by the same title returns the
    row that was inserted, after the success message. *)
Theorem new_project_then_lookup t d m v w :
  text_fits (ty_title sch) t → text_fits (ty_description sch) d →
  coerce_store (ty_max_grade sch) m = inr v → VText t ∉ title <$> projects (session w) →
  (add_project sch t d m ≫= λ _, get_project_by_title sch t) w =
    let db := mkDB (students (session w)) (projects (session w) ++ [mkProject (VText t) (VText d) v])
                   (grades (session w)) in
    Done (Some (mkProject (VText t) (VText d) v)) (mkWorld db db (stdout w ++ [msg_project_ok +:+ nl])).
Proof.
  intros Ht Hd Hm Hfresh. cbv zeta.
  set (db := mkDB (students (session w))
               (projects (session w) ++ [mkProject (VText t) (VText d) v]) (grades (session w))).
  assert (insert_project sch t d m (session w) = inr db) as Hins.
  { apply insert_project_inr. rewrite !text_fits_store by done. naive_solver. }
  assert (select_project sch t db = inr (Some (mkProject (VText t) (VText d) v))) as Hsel.
  { unfold select_project. rewrite text_fits_cmp by done. simpl. f_equal.
    apply fetchone_snoc_fresh; [done|]. intros y Hy Heq. apply Hfresh, list_elem_of_fmap. eauto. }
  erewrite bind_Done; [|by rewrite (add_project_inr _ _ _ _ _ db Hins), Hsel].
  by apply execute_inr.
Qed.

(** C3: Assign Grade then Lookup Grade for the same student and project,
    when the pair has no grade yet, prints the grade as the store holds
    it (for an [integer] column, the decimal of the number read). *)
Theorem assign_then_lookup g t gr v w :
  text_fits (ty_student_github sch) g → text_fits (ty_project_title sch) t →
  coerce_store (ty_grade sch) gr = inr v →
  (VText g, VText t) ∉ grade_key <$> grades (session w) →
  (fk_grade_student sch = true → VText g ∈ Store.github <$> students (session w)) →
  (fk_grade_project sch = true → VText t ∈ title <$> projects (session w)) →
  (assign_grade sch g t gr;; get_grade_by_github_title sch g t) w =
    let db := mkDB (students (session w)) (projects (session w))
                   (grades (session w) ++ [mkGrade (VText g) (VText t) v]) in
    Done tt (mkWorld db db (stdout w ++
      [(g +:+ "'s project " +:+ t +:+ "'s grade is " +:+ gr
        +:+ " and has succesfully been insterted!") +:+ nl;
       ("Grades is " +:+ py_str v +:+ " for " +:+ t) +:+ nl])).
Proof.
  intros Hg Ht Hv Hfresh Hs Hp.
  erewrite bind_Done; last first.
  { apply assign_grade_inr, insert_grade_inr. rewrite !text_fits_store by done. naive_solver. }
  rewrite get_grade_found with (r := mkGrade (VText g) (VText t) v).
  - unfold emit. simpl. by rewrite <-app_assoc.
  - unfold select_grade. simpl. rewrite !text_fits_cmp by done. simpl. f_equal.
    apply fetchone_snoc_fresh; [done|]. intros y Hy [Hy1 Hy2]. apply Hfresh, list_elem_of_fmap.
    exists y. unfold grade_key. by rewrite Hy1, Hy2.
Qed.

(** C4: Lookup Grade for a pair with no grade prints the "no grade yet"
    message and raises nothing. *)
Theorem lookup_grade_missing g t vg vt w :
  coerce_cmp (ty_student_github sch) g = inr vg → coerce_cmp (ty_project_title sch) t = inr vt →
  (vg, vt) ∉ grade_key <$> grades (session w) →
  get_grade_by_github_title sch g t w = Done tt (emit w (msg_no_grade +:+ nl)).
Proof.
  intros Hg Ht Hn. apply get_grade_missing. unfold select_grade. rewrite Hg, Ht. simpl.
  f_equal. apply fetchone_None. intros y Hy [<- <-]. apply Hn, list_elem_of_fmap. by exists y.
Qed.

(** C10: Lookup Student for an account that is not in the table raises
    [TypeError] ([row[0]] on [None]): the error ends the process. *)
Theorem lookup_student_missing g v w :
  coerce_cmp (ty_github sch) g = inr v → v ∉ Store.github <$> students (session w) →
  get_student_by_github sch g w = Raised NoneSubscript w.
Proof.
  intros Hg Hn. apply get_student_missing. unfold select_student. rewrite Hg. simpl.
  f_equal. apply fetchone_None. intros y Hy <-. apply Hn, list_elem_of_fmap. by exists y.
Qed.

(** C8: when [add_project] returns, with a title without whitespace (every
    title the command loop passes), it has printed the success message:
    the failure branch of lines 123-124 is never taken. *)
Theorem add_project_verified t d m w w' :
  no_space t = true → add_project sch t d m w = Done tt w' →
  stdout w' = stdout w ++ [msg_project_ok +:+ nl].
Proof.
  intros Ht. destruct (insert_project sch t d m (session w)) as [e|db] eqn:Hins.
  - by rewrite add_project_inl with (e := e).
  - rewrite (add_project_inr _ _ _ _ _ db) by done.
    apply insert_project_inr in Hins as (t'&d'&m'&Ht'&_&_&_&->).
    unfold select_project. rewrite (coerce_store_cmp _ _ t') by done. simpl.
    edestruct (fetchone_Some_exists (λ p, title p = t')) as (y & -> & _);
      [by apply elem_of_app; right; left|done|].
    by intros [= <-].
Qed.
End RoundTrips.

(** ** Repeated grades *)

Section Duplicates.
Context (sch : Schema).

(** C9: no constraint stops a second grade for the same student and
    project; when the table is scanned in storage order, Lookup Grade
    keeps showing the first grade ever given, whatever was assigned
    since. *)
Theorem regrade_shows_first g t gr x w w1 :
  select_grade (SO := heap_order) sch g t (session w) = inr (Some x) →
  assign_grade sch g t gr w = Done tt w1 →
  get_grade_by_github_title (SO := heap_order) sch g t w1 =
    Done tt (emit w1 (("Grades is " +:+ py_str (grade x) +:+ " for " +:+ t) +:+ nl)).
Proof.
  intros Hsel Has. destruct (insert_grade sch g t gr (session w)) as [e|db] eqn:Hins.
  - by rewrite (assign_grade_inl _ _ _ _ _ e) in Has.
  - rewrite (assign_grade_inr _ _ _ _ _ db) in Has by done. injection Has as <-.
    apply get_grade_found. apply insert_grade_inr in Hins as (?&?&?&_&_&_&_&_&_&->).
    revert Hsel. unfold select_grade. simpl.
    destruct (coerce_cmp _ g), (coerce_cmp _ t); simpl; try done.
    intros [= Hf]. by rewrite (fetchone_heap_snoc _ _ _ _ Hf).
Qed.
End Duplicates.

(** ** The failure branch of [add_project] *)

Definition title30 : string := "aaaaaaaaaaaaaaaaaaaaaaaaaaaaaa".

Section Failure.
Context (sch : Schema) `{SO : ScanOrder}.

Lemma coerce_store_cut n t :
  n < String.length t → all_spaces (String.substring n (String.length t - n) t) = true →
  coerce_store (TText (Some n)) t = inr (VText (String.substring 0 n t)).
Proof.
  intros Hn Hs. simpl. destruct (Nat.leb_spec (String.length t) n); [lia|]. by rewrite Hs.
Qed.

Lemma typed_title_ne n t p :
  ty_title sch = TText (Some n) → n < String.length t → project_typed sch p → title p ≠ VText t.
Proof.
  intros Hty Hn (Ht & _ & _) Heq. rewrite Hty, Heq in Ht. simpl in Ht. lia.
Qed.

(** C14: [add_project] with a title longer than its [varchar(n)] column
    whose excess is spaces stores the cut title, reads back by the full
    one, finds no row and prints the failure message (lines 123-124), the
    insertion committed: the branch is dead only for the titles the
    command loop produces. *)
Theorem add_project_failure_branch t d m n d' m' w :
  ty_title sch = TText (Some n) → n < String.length t →
  all_spaces (String.substring n (String.length t - n) t) = true →
  coerce_store (ty_description sch) d = inr d' → coerce_store (ty_max_grade sch) m = inr m' →
  (uq_title sch = true → VText (String.substring 0 n t) ∉ title <$> projects (session w)) →
  Forall (project_typed sch) (projects (session w)) →
  let db := mkDB (students (session w))
              (projects (session w) ++ [mkProject (VText (String.substring 0 n t)) d' m'])
              (grades (session w)) in
  add_project sch t d m w = Done tt (mkWorld db db (stdout w ++ [msg_project_failed +:+ nl])).
Proof.
  intros Hty Hn Hs Hd Hm Hu Htyped db.
  rewrite (add_project_inr _ _ _ _ _ db).
  - unfold select_project. rewrite Hty. simpl. rewrite fetchone_None; [done|].
    intros p [Hp|Hp%list_elem_of_singleton]%elem_of_app.
    + apply (typed_title_ne n t p Hty Hn). by eapply Forall_forall.
    + subst p. simpl. intros [= Heq]. apply (f_equal String.length) in Heq.
      rewrite length_substring in Heq. lia.
  - unfold insert_project. rewrite Hty, coerce_store_cut, Hd, Hm by done. simpl.
    destruct (uq_title sch) eqn:Hq; simpl; [|done].
    unfold key_taken. rewrite bool_decide_eq_false_2; [done|]. rewrite Exists_key. by apply Hu.
Qed.
End Failure.

(** ** Witnesses on concrete inputs *)

Definition w_empty : World := mkWorld empty_db empty_db [].

Definition db_graded : DB :=
  mkDB [] [] [mkGrade (VText "ada") (VText "Ants") (VInt 95)].

Lemma new_student_then_lookup_witness :
  (make_new_student hackbright_schema "Ada" "Lovelace" "ada";;
   get_student_by_github hackbright_schema (SO := heap_order) "ada") w_empty =
    let db := mkDB [mkStudent (VText "Ada") (VText "Lovelace") (VText "ada")] [] [] in
    Done tt (mkWorld db db [msg_inserted +:+ nl;
      ("Student: " +:+ "Ada" +:+ " " +:+ "Lovelace" +:+ nl +:+ "GitHub account: " +:+ "ada") +:+ nl]).
Proof. apply (new_student_then_lookup hackbright_schema "Ada" "Lovelace" "ada" w_empty); simpl; lia || decide_prop. Defined.

Lemma new_project_then_lookup_witness :
  (add_project hackbright_schema (SO := heap_order) "Ants" "kill all the ants" "100" ≫= λ _,
   get_project_by_title hackbright_schema (SO := heap_order) "Ants") w_empty =
    let db := mkDB [] [mkProject (VText "Ants") (VText "kill all the ants") (VInt 100)] [] in
    Done (Some (mkProject (VText "Ants") (VText "kill all the ants") (VInt 100)))
      (mkWorld db db [msg_project_ok +:+ nl]).
Proof. apply (new_project_then_lookup hackbright_schema "Ants" "kill all the ants" "100" (VInt 100) w_empty); simpl; (lia || done || decide_prop). Defined.

Lemma assign_then_lookup_witness :
  (assign_grade hackbright_schema "ada" "Ants" "095";;
   get_grade_by_github_title hackbright_schema (SO := heap_order) "ada" "Ants") w_empty =
    let db := mkDB [] [] [mkGrade (VText "ada") (VText "Ants") (VInt 95)] in
    Done tt (mkWorld db db
      [("ada" +:+ "'s project " +:+ "Ants" +:+ "'s grade is " +:+ "095"
        +:+ " and has succesfully been insterted!") +:+ nl;
       ("Grades is " +:+ py_str (VInt 95) +:+ " for " +:+ "Ants") +:+ nl]).
Proof. apply (assign_then_lookup hackbright_schema "ada" "Ants" "095" (VInt 95) w_empty); simpl; (lia || done || decide_prop). Defined.

Lemma lookup_grade_missing_witness :
  get_grade_by_github_title hackbright_schema (SO := heap_order) "bob" "Ants"
    (mkWorld db_graded db_graded []) = Done tt (emit (mkWorld db_graded db_graded []) (msg_no_grade +:+ nl)).
Proof.
  apply (lookup_grade_missing hackbright_schema _ _ (VText "bob") (VText "Ants"));
    [reflexivity|reflexivity|decide_prop].
Defined.

Lemma lookup_student_missing_witness :
  get_student_by_github hackbright_schema (SO := heap_order) "bob" w_empty = Raised NoneSubscript w_empty.
Proof. apply (lookup_student_missing hackbright_schema _ (VText "bob")); [reflexivity|decide_prop]. Defined.

Lemma add_project_verified_witness :
  let db := mkDB [] [mkProject (VText "Ants") (VText "") (VInt 7)] [] in
  stdout (mkWorld db db [msg_project_ok +:+ nl]) = stdout w_empty ++ [msg_project_ok +:+ nl].
Proof.
  intros db.
  apply (add_project_verified hackbright_schema (SO := heap_order) "Ants" "" "7" w_empty
           (mkWorld db db [msg_project_ok +:+ nl])); vm_compute; reflexivity.
Defined.

Lemma add_project_failure_branch_witness :
  let w := mkWorld empty_db empty_db [] in
  let t := title30 +:+ " " in
  let db := mkDB (students (session w))
              (projects (session w) ++ [mkProject (VText (String.substring 0 30 t)) (VText "") (VInt 1)])
              (grades (session w)) in
  add_project hackbright_schema (SO := heap_order) t "" "1" w =
    Done tt (mkWorld db db (stdout w ++ [msg_project_failed +:+ nl])).
Proof.
  intros w t db.
  apply (add_project_failure_branch hackbright_schema _ _ _ 30 (VText "") (VInt 1));
    [reflexivity|simpl; lia|reflexivity|reflexivity|reflexivity|intros [=]|constructor].
Defined.

Lemma regrade_shows_first_witness :
  let w1 := mkWorld (mkDB [] [] [mkGrade (VText "ada") (VText "Ants") (VInt 95);
                                 mkGrade (VText "ada") (VText "Ants") (VInt 40)])
                    (mkDB [] [] [mkGrade (VText "ada") (VText "Ants") (VInt 95);
                                 mkGrade (VText "ada") (VText "Ants") (VInt 40)])
                    ["ada's project Ants's grade is 40 and has succesfully been insterted!" +:+ nl] in
  get_grade_by_github_title (SO := heap_order) hackbright_schema "ada" "Ants" w1 =
    Done tt (emit w1 (("Grades is " +:+ py_str (VInt 95) +:+ " for " +:+ "Ants") +:+ nl)).
Proof.
  intros w1.
  apply (regrade_shows_first hackbright_schema "ada" "Ants" "40"
           (mkGrade (VText "ada") (VText "Ants") (VInt 95)) (mkWorld db_graded db_graded []) w1);
    vm_compute; reflexivity.
Defined.

End Ops.
