(* ===== verification/OpsErrors.v ===== *)
(** * Error behaviour of the data-access functions: constraints and bounds

    The program checks nothing before an INSERT (src/hackbright.py, lines
    39-57 and 97-107); what the database refuses ends the process.  This
    file states, for a schema that declares the constraints, that a
    duplicate account or a grade for an unknown student is refused with
    the world unchanged (nothing printed, nothing committed), and for an
    [integer] grade column, that the grade a successful [give_grade] stores
    is a 32-bit integer and that the decimal text of any integer outside
    that range is refused. *)

From S2P Require Import Prelude PyStr SqlValue Store Session Ops.

Module OpsErrors.
Import SqlValue Store Session Ops.

Section Errors.
Context (sch : Schema).

Lemma key_taken_true {A} (key : A → SqlVal) v (rows : list A) :
  v ∈ key <$> rows → key_taken key v rows = true.
Proof. intros Hv. unfold key_taken. apply bool_decide_eq_true, Exists_key, Hv. Qed.

Lemma key_taken_false {A} (key : A → SqlVal) v (rows : list A) :
  v ∉ key <$> rows → key_taken key v rows = false.
Proof. intros Hv. unfold key_taken. apply bool_decide_eq_false. by rewrite Exists_key. Qed.

(** C21: with [students.github] declared UNIQUE, Create Student for an
    account already in the table raises [IntegrityError] before printing
    anything, with the world unchanged. *)
Theorem duplicate_student_rejected f l g w :
  uq_github sch = true → text_fits (ty_first_name sch) f → text_fits (ty_last_name sch) l →
  text_fits (ty_github sch) g → VText g ∈ Store.github <$> students (session w) →
  make_new_student sch f l g w = Raised (DbExc UniqueViolation) w.
Proof.
  intros Hu Hf Hl Hg Hin. apply make_new_student_inl. unfold insert_student.
  rewrite !text_fits_store by done. cbn -[key_taken]. by rewrite Hu, key_taken_true.
Qed.

(** C22: with the foreign key from [grades] to [students] declared, Assign
    Grade for an account that is not a student raises [IntegrityError]
    with the world unchanged (when the pair is not already graded under a
    UNIQUE pair constraint, which is checked first). *)
Theorem grade_unknown_student_rejected g t gr v w :
  fk_grade_student sch = true → text_fits (ty_student_github sch) g →
  text_fits (ty_project_title sch) t → coerce_store (ty_grade sch) gr = inr v →
  (uq_grade sch = true → (VText g, VText t) ∉ grade_key <$> grades (session w)) →
  VText g ∉ Store.github <$> students (session w) →
  assign_grade sch g t gr w = Raised (DbExc ForeignKeyViolation) w.
Proof.
  intros Hfk Hg Ht Hv Hu Hn. apply assign_grade_inl. unfold insert_grade.
  rewrite Hv, !text_fits_store by done. cbn -[key_taken].
  destruct (uq_grade sch); cbn -[key_taken].
  - rewrite bool_decide_eq_false_2; [simpl|by rewrite grade_key_exists; auto].
    by rewrite Hfk, key_taken_false.
  - by rewrite Hfk, key_taken_false.
Qed.

(** C23: with an [integer] grade column, the grade a successful Assign
    Grade commits is a 32-bit integer, whatever text was given. *)
Theorem assign_grade_stored_bounds g t gr w w' :
  ty_grade sch = TInt → assign_grade sch g t gr w = Done tt w' →
  ∃ r z, last (grades (committed w')) = Some r ∧ grade r = VInt z ∧ (int4_min ≤ z ≤ int4_max)%Z.
Proof.
  intros Hty Ha. destruct (insert_grade sch g t gr (session w)) as [e|db] eqn:Hins.
  - by rewrite (assign_grade_inl _ _ _ _ _ e) in Ha.
  - rewrite (assign_grade_inr _ _ _ _ _ db) in Ha by done. injection Ha as <-.
    apply insert_grade_inr in Hins as (g'&t'&gr'&_&_&Hgr&_&_&_&->). simpl.
    apply coerce_store_typed in Hgr. rewrite Hty in Hgr. destruct gr' as [|z]; [done|].
    exists (mkGrade g' t' (VInt z)), z. by rewrite last_snoc.
Qed.

(** C24: with an [integer] grade column, Assign Grade with the decimal
    text of an integer outside the 32-bit range raises [DataError] with
    the world unchanged. *)
Theorem assign_grade_out_of_range g t z w :
  ty_grade sch = TInt → text_fits (ty_student_github sch) g → text_fits (ty_project_title sch) t →
  (z < int4_min ∨ int4_max < z)%Z →
  assign_grade sch g t (pretty z) w = Raised (DbExc NumericValueOutOfRange) w.
Proof.
  intros Hty Hg Ht Hz. apply assign_grade_inl. unfold insert_grade.
  rewrite (text_fits_store _ g Hg), (text_fits_store _ t Ht). simpl. rewrite Hty. simpl.
  by rewrite int4_in_pretty_out_of_range.
Qed.

(** C25: with [projects.title] declared UNIQUE, Create Project for a
    title already in the table raises [IntegrityError] before its
    verification runs, with the world unchanged. *)
Theorem duplicate_project_rejected t d m v w :
  uq_title sch = true → text_fits (ty_title sch) t → text_fits (ty_description sch) d →
  coerce_store (ty_max_grade sch) m = inr v → VText t ∈ title <$> projects (session w) →
  add_project sch t d m w = Raised (DbExc UniqueViolation) w.
Proof.
  intros Hu Ht Hd Hm Hin. apply add_project_inl. unfold insert_project.
  rewrite Hm, !text_fits_store by done. cbn -[key_taken]. by rewrite Hu, key_taken_true.
Qed.

(** C26: Create Student with an account longer than its [varchar(n)]
    column, whose excess is not all spaces, raises [DataError] (string
    data right truncation) with the world unchanged, once the two names
    fit. *)
Theorem long_github_rejected f l g n w :
  ty_github sch = TText (Some n) → text_fits (ty_first_name sch) f →
  text_fits (ty_last_name sch) l → n < String.length g →
  all_spaces (String.substring n (String.length g - n) g) = false →
  make_new_student sch f l g w = Raised (DbExc StringDataRightTruncation) w.
Proof.
  intros Hty Hf Hl Hn Hsp. apply make_new_student_inl. unfold insert_student.
  rewrite (text_fits_store _ f Hf), (text_fits_store _ l Hl). simpl. rewrite Hty. simpl.
  destruct (Nat.leb_spec (String.length g) n); [lia|]. by rewrite Hsp.
Qed.

(** C15: a grade as Lookup Grade prints it ([str()] of the stored integer,
    line 93), typed back to Assign Grade, is committed as the same integer
    in a new last row, whatever 32-bit value it was, when the declared
    constraints allow the row. *)
Theorem printed_grade_roundtrip g t z w :
  ty_grade sch = TInt → text_fits (ty_student_github sch) g → text_fits (ty_project_title sch) t →
  (int4_min ≤ z ≤ int4_max)%Z →
  (uq_grade sch = true → (VText g, VText t) ∉ grade_key <$> grades (session w)) →
  (fk_grade_student sch = true → VText g ∈ Store.github <$> students (session w)) →
  (fk_grade_project sch = true → VText t ∈ title <$> projects (session w)) →
  ∃ w', assign_grade sch g t (py_str (VInt z)) w = Done tt w' ∧ session w' = committed w' ∧
        last (grades (committed w')) = Some (mkGrade (VText g) (VText t) (VInt z)).
Proof.
  intros Hty Hg Ht Hz Hu Hfs Hfp.
  set (db := mkDB (students (session w)) (projects (session w))
               (grades (session w) ++ [mkGrade (VText g) (VText t) (VInt z)])).
  eexists. rewrite (assign_grade_inr _ _ _ _ _ db); [split_and!; [done|done|simpl; by rewrite last_snoc]|].
  unfold insert_grade. rewrite (text_fits_store _ g Hg), (text_fits_store _ t Ht), Hty.
  cbn [py_str coerce_store]. rewrite int4_in_pretty by done. cbn -[key_taken].
  destruct (uq_grade sch) eqn:Eu, (fk_grade_student sch) eqn:Es, (fk_grade_project sch) eqn:Ep;
    cbn -[key_taken];
    rewrite ?bool_decide_eq_false_2 by (rewrite grade_key_exists; auto); cbn -[key_taken];
    rewrite ?key_taken_true by auto; done.
Qed.
End Errors.

(** ** Witnesses on concrete inputs *)

Definition db_ada : DB := mkDB [mkStudent (VText "Ada") (VText "Lovelace") (VText "ada")] [] [].
Definition w_ada : World := mkWorld db_ada db_ada [].

Lemma duplicate_student_rejected_witness :
  make_new_student strict_schema "Ada" "King" "ada" w_ada = Raised (DbExc UniqueViolation) w_ada.
Proof. apply duplicate_student_rejected; (reflexivity || simpl; lia || decide_prop). Defined.

Lemma grade_unknown_student_rejected_witness :
  assign_grade strict_schema "bob" "Ants" "95" w_ada = Raised (DbExc ForeignKeyViolation) w_ada.
Proof.
  apply (grade_unknown_student_rejected _ _ _ _ (VInt 95));
    (reflexivity || (simpl; lia) || (intros; decide_prop) || decide_prop).
Defined.

Lemma assign_grade_stored_bounds_witness :
  ∃ r z, last (grades (committed (mkWorld (mkDB [] [] [mkGrade (VText "ada") (VText "Ants") (VInt 95)])
                                          (mkDB [] [] [mkGrade (VText "ada") (VText "Ants") (VInt 95)])
    ["ada's project Ants's grade is  95 and has succesfully been insterted!" +:+ nl])))
    = Some r ∧ grade r = VInt z ∧ (int4_min ≤ z ≤ int4_max)%Z.
Proof.
  apply (assign_grade_stored_bounds hackbright_schema "ada" "Ants" " 95" (mkWorld empty_db empty_db []));
    [reflexivity|vm_compute; reflexivity].
Defined.

Lemma assign_grade_out_of_range_witness :
  assign_grade hackbright_schema "ada" "Ants" (pretty 2147483648%Z) w_ada =
    Raised (DbExc NumericValueOutOfRange) w_ada.
Proof. apply assign_grade_out_of_range; [reflexivity|simpl; lia|simpl; lia|unfold int4_max; lia]. Defined.

Definition db_both : DB :=
  mkDB [mkStudent (VText "Ada") (VText "Lovelace") (VText "ada")]
       [mkProject (VText "Ants") (VText "colony") (VInt 100)] [].
Definition w_both : World := mkWorld db_both db_both [].

Definition db_ants : DB := mkDB [] [mkProject (VText "Ants") (VText "colony") (VInt 100)] [].

Lemma duplicate_project_rejected_witness :
  add_project strict_schema "Ants" "again" "50" (mkWorld db_ants db_ants []) =
    Raised (DbExc UniqueViolation) (mkWorld db_ants db_ants []).
Proof.
  apply (duplicate_project_rejected _ _ _ _ (VInt 50)); (reflexivity || (simpl; lia) || decide_prop || done).
Defined.

Lemma long_github_rejected_witness :
  make_new_student hackbright_schema "Ada" "Lovelace" "ada_lovelace_analytical_engine_1843" w_ada =
    Raised (DbExc StringDataRightTruncation) w_ada.
Proof. apply (long_github_rejected _ _ _ _ 30); (reflexivity || (simpl; lia)). Defined.

Lemma printed_grade_roundtrip_witness :
  ∃ w', assign_grade strict_schema "ada" "Ants" (py_str (VInt 95)) w_both = Done tt w' ∧
    session w' = committed w' ∧
    last (grades (committed w')) = Some (mkGrade (VText "ada") (VText "Ants") (VInt 95)).
Proof.
  apply printed_grade_roundtrip;
    first [reflexivity | (simpl; lia) | (unfold int4_min, int4_max; lia) | (intros _; decide_prop)].
Defined.

End OpsErrors.
