(* ===== verification/Loop.v ===== *)
(** * The command loop: [handle_input] and the program's entry point

    [handle_input] (src/hackbright.py, lines 129-172) prompts, splits the
    line into tokens, takes the first as the command and the rest as its
    arguments, calls one of the six functions of [Ops], and stops after the
    command [quit].  Lines are read from [stdin], a finite list; [input()]
    past its end raises [EOFError].  The loop consumes one line per
    iteration, so [handle_input] is structurally recursive on [stdin].
    [main] (lines 177-183) runs the loop and closes the session; App.v
    models the [connect_to_db(app)] call of line 176 that precedes it. *)

From S2P Require Import Prelude PyStr SqlValue Store Session Ops.

Module Loop.
Import PyStr SqlValue Store Session Ops.

Definition prompt : string := "HBA Database> ".
Definition msg_invalid : string := "Invalid Entry. Try again.".

Section Loop.
Context (sch : Schema) `{SO : ScanOrder}.

(** The [if]/[elif] chain of lines 144-172. *)
Definition dispatch (command : string) (args : list string) : M unit :=
  if decide (command = "student") then
    github ← py_index args 0;
    get_student_by_github sch github
  else if decide (command = "new_student") then
    ' (first_name, last_name, github) ← unpack3 args;
    make_new_student sch first_name last_name github
  else if decide (command = "projects") then
    title ← py_index args 0;
    _ ← get_project_by_title sch title;
    mret ()
  else if decide (command = "grade") then
    ' (github, title) ← unpack2 args;
    get_grade_by_github_title sch github title
  else if decide (command = "give_grade") then
    ' (github, title, grade) ← unpack3 args;
    assign_grade sch github title grade
  else if decide (command = "new_project") then
    title ← py_index args 0;
    let description := py_middle args in
    max_grade ← py_last args;
    add_project sch title (py_join " " description) max_grade
  else if decide (command ≠ "quit") then
    print msg_invalid
  else mret ().

(** [while command != "quit": ...]: one line of [stdin] per iteration. *)
Fixpoint handle_input (stdin : list string) : M unit :=
  write prompt;;
  match stdin with
  | [] => raise EOFError
  | input_string :: rest =>
      let tokens := py_split input_string in
      command ← py_index tokens 0;
      let args := py_tail tokens in
      dispatch command args;;
      if decide (command = "quit") then mret () else handle_input rest
  end.

(** Lines 177-183: [handle_input()] and
    [db.session.close()].  The close is not reached when the loop
    raises. *)
Definition main (stdin : list string) : M unit :=
  handle_input stdin;;
  close.

(** The process started on a database [db0] with an empty stdout. *)
Definition run (db0 : DB) (stdin : list string) : Outcome unit :=
  main stdin (mkWorld db0 db0 []).
End Loop.

Definition commands : list string :=
  ["student"; "new_student"; "projects"; "grade"; "give_grade"; "new_project"].

(** ** The loop, one line at a time *)

Section LoopSpec.
Context (sch : Schema) `{SO : ScanOrder}.

Lemma handle_input_nil w : handle_input sch [] w = Raised EOFError (emit w prompt).
Proof. done. Qed.

Lemma handle_input_cons line rest w command :
  head (py_split line) = Some command →
  handle_input sch (line :: rest) w =
    (dispatch sch command (py_tail (py_split line));;
     if decide (command = "quit") then mret () else handle_input sch rest) (emit w prompt).
Proof.
  intros Hc. cbn [handle_input]. unfold mbind at 1, M_bind. simpl.
  unfold py_index. rewrite <-head_lookup, Hc. done.
Qed.

Lemma dispatch_other command args :
  command ∉ commands → command ≠ "quit" → dispatch sch command args = print msg_invalid.
Proof.
  intros Hc Hq. unfold dispatch.
  do 6 (case_decide; [subst; set_solver|]). by case_decide.
Qed.

(** C5: a line whose first token is [quit] ends the loop: nothing more
    is read or printed after its prompt, whatever input follows. *)
Theorem quit_terminates line rest w :
  head (py_split line) = Some "quit" →
  handle_input sch (line :: rest) w = Done tt (emit w prompt).
Proof.
  intros Hq. rewrite (handle_input_cons _ _ _ "quit") by done.
  unfold dispatch. do 6 (case_decide; [done|]). by case_decide.
Qed.

(** C6: an unknown command prints the invalid-entry message, and the
    loop goes on with the next line. *)
Theorem invalid_command_continues line rest w command :
  head (py_split line) = Some command → command ∉ commands → command ≠ "quit" →
  handle_input sch (line :: rest) w =
    handle_input sch rest (emit (emit w prompt) (msg_invalid +:+ nl)).
Proof.
  intros Hc Hn Hq. rewrite (handle_input_cons _ _ _ command) by done.
  rewrite dispatch_other by done. unfold mbind, M_bind. simpl. by case_decide.
Qed.

(** C11: a line with no token (empty or all whitespace) raises
    [IndexError] at [tokens[0]]: a blank line ends the process. *)
Theorem blank_line_fatal line rest w :
  py_split line = [] → handle_input sch (line :: rest) w = Raised IndexError (emit w prompt).
Proof. intros Hb. cbn [handle_input]. unfold mbind, M_bind. simpl. by rewrite Hb. Qed.

(** C13: [new_project] with a single argument uses that argument as both
    the title and the maximum grade, with an empty description
    ([args[0]], [args[1:-1]] and [args[-1]] on a one-element list). *)
Theorem new_project_single_arg x :
  dispatch sch "new_project" [x] = add_project sch x "" x.
Proof. done. Qed.

(** C12: [grade] with other than two arguments raises [ValueError] from
    the tuple unpacking; [new_student] and [give_grade] with other than
    three likewise. *)
Theorem wrong_arity_fatal args :
  (length args ≠ 2 → dispatch sch "grade" args = raise (UnpackError 2 (length args))) ∧
  (length args ≠ 3 → dispatch sch "new_student" args = raise (UnpackError 3 (length args))) ∧
  (length args ≠ 3 → dispatch sch "give_grade" args = raise (UnpackError 3 (length args))).
Proof.
  split_and!; intros Hl; unfold dispatch; simpl;
    (destruct args as [|a [|b [|c [|d args]]]]; simpl in *; done || lia).
Qed.

(** The [projects] command looks the project up and prints nothing:
    [get_project_by_title] returns the row and the loop discards it (the
    print of line 73 is commented out). *)
Theorem projects_command_silent t rest w r :
  select_project sch t (session w) = inr r →
  dispatch sch "projects" (t :: rest) w = Done tt w.
Proof.
  intros H. unfold dispatch. do 2 (case_decide; [done|]). case_decide; [|done].
  unfold mbind, M_bind, get_project_by_title. simpl. by erewrite execute_inr.
Qed.
End LoopSpec.

(** ** The scenario of the spec (section 8), run through [main] *)

Definition dq : string := String "034" "".

Definition scenario_input : list string :=
  ["new_student Ada Lovelace ada"; "student ada";
   "new_project Ants " +:+ dq +:+ "kill all the ants" +:+ dq +:+ " 100";
   "give_grade ada Ants 95"; "grade ada Ants"; "foobar"; "quit"; "student nobody"].

Definition scenario_db : DB :=
  mkDB [mkStudent (VText "Ada") (VText "Lovelace") (VText "ada")]
       [mkProject (VText "Ants") (VText (dq +:+ "kill" +:+ " all the ants" +:+ dq)) (VInt 100)]
       [mkGrade (VText "ada") (VText "Ants") (VInt 95)].

(** On an empty database, the spec's scenario prints the student,
    then [Grades is 95 for Ants]; the unknown command only prints the
    invalid-entry message; [quit] ends the loop before the last line is
    read.  The double quotes are not parsed: they are part of the stored
    description. *)
Example spec_scenario :
  run hackbright_schema (SO := heap_order) empty_db scenario_input =
    Done tt (mkWorld scenario_db scenario_db
      [prompt; msg_inserted +:+ nl;
       prompt; ("Student: Ada Lovelace" +:+ nl +:+ "GitHub account: ada") +:+ nl;
       prompt; msg_project_ok +:+ nl;
       prompt; "ada's project Ants's grade is 95 and has succesfully been insterted!" +:+ nl;
       prompt; "Grades is 95 for Ants" +:+ nl;
       prompt; msg_invalid +:+ nl;
       prompt]).
Proof. vm_compute. reflexivity. Qed.

(** ** Witnesses on concrete inputs *)

Definition w0 : World := mkWorld empty_db empty_db [].

Lemma quit_terminates_witness :
  head (py_split "  quit now") = Some "quit" ∧
  handle_input hackbright_schema (SO := heap_order) ["  quit now"; "student ada"] w0 = Done tt (emit w0 prompt).
Proof. split; [reflexivity|apply quit_terminates; reflexivity]. Defined.

Lemma invalid_command_continues_witness :
  handle_input hackbright_schema (SO := heap_order) ["foobar 1 2"; "quit"] w0 =
    handle_input hackbright_schema (SO := heap_order) ["quit"] (emit (emit w0 prompt) (msg_invalid +:+ nl)).
Proof. apply (invalid_command_continues _ _ _ _ "foobar"); [reflexivity|decide_prop|discriminate]. Defined.

Lemma blank_line_fatal_witness :
  py_split (String "009" "  ") = [] ∧
  handle_input hackbright_schema (SO := heap_order) [String "009" "  "; "quit"] w0 =
    Raised IndexError (emit w0 prompt).
Proof. split; [reflexivity|apply blank_line_fatal; reflexivity]. Defined.

Lemma projects_command_silent_witness :
  dispatch hackbright_schema (SO := heap_order) "projects" ["Ants"] w0 = Done tt w0.
Proof. by apply (projects_command_silent _ _ _ _ None). Defined.

Lemma wrong_arity_fatal_witness :
  dispatch hackbright_schema (SO := heap_order) "give_grade" ["ada"; "Ants"] =
    raise (UnpackError 3 2).
Proof. apply (wrong_arity_fatal hackbright_schema ["ada"; "Ants"]). simpl. lia. Defined.

End Loop.
