(* ===== verification/Safety.v ===== *)
(** * What every run of the program keeps

    From a database that satisfies the schema invariant [wf_db], every
    world the program passes through, up to a fatal exception or the end
    of [main], has a committed state and a session state that satisfy it,
    with the committed rows a prefix of the session's.  The committed rows
    and stdout only grow: the program never updates or deletes a row and
    never takes back output.  The proof goes through [Session.keeps], one
    lemma per primitive and per function of src/hackbright.py. *)

From S2P Require Import Prelude PyStr SqlValue Store Session Ops Loop.

Module Safety.
Import SqlValue Store Session Ops Loop.

(** Moving forward: the committed rows and stdout are extended. *)
Definition world_le (w w' : World) : Prop :=
  db_le (committed w) (committed w') ∧ stdout w `prefix_of` stdout w'.

#[export] Instance world_le_preorder : PreOrder world_le.
Proof.
  split.
  - intros w. split; reflexivity.
  - intros w1 w2 w3 [??] [??]. split; by etrans.
Qed.

Section Safety.
Context (sch : Schema) `{SO : ScanOrder}.

Definition world_ok (w : World) : Prop :=
  wf_db sch (committed w) ∧ wf_db sch (session w) ∧ db_le (committed w) (session w).

Local Abbreviation keeps := (keeps world_ok world_le).

Lemma keeps_write s : keeps (write s).
Proof. intros w Hw. split; [done|]. split; [done|]. simpl. by apply prefix_app_r. Qed.

Lemma keeps_print s : keeps (print s).
Proof. apply keeps_write. Qed.

Lemma keeps_commit : keeps commit.
Proof. intros w (?&?&?). split; [split_and!; simpl; done || reflexivity|]. split; [done|reflexivity]. Qed.

Lemma keeps_close : keeps close.
Proof. intros w (?&?&?). split; [split_and!; simpl; done || reflexivity|]. split; reflexivity. Qed.

Lemma keeps_execute_write q :
  (∀ db db', wf_db sch db → q db = inr db' → wf_db sch db' ∧ db_le db db') →
  keeps (execute_write q).
Proof.
  intros Hq w (?&Hs&?). unfold execute_write.
  destruct (q (session w)) as [e|db'] eqn:E; simpl; [split; [done|reflexivity]|].
  destruct (Hq _ _ Hs E). split; [split_and!; simpl; [done|done|by etrans]|]. split; [done|reflexivity].
Qed.

#[local] Hint Resolve keeps_write keeps_print keeps_commit keeps_close : hb.
#[local] Hint Resolve insert_student_wf insert_project_wf insert_grade_wf
  insert_student_grows insert_project_grows insert_grade_grows : hb.

Ltac keeps_write_tac :=
  apply keeps_execute_write; intros ??; split; eauto with hb.

Lemma keeps_get_student g : keeps (get_student_by_github sch g).
Proof. unfold get_student_by_github. repeat keeps_step. Qed.

Lemma keeps_make_new_student f l g : keeps (make_new_student sch f l g).
Proof. unfold make_new_student. repeat keeps_step. keeps_write_tac. Qed.

Lemma keeps_get_grade g t : keeps (get_grade_by_github_title sch g t).
Proof. unfold get_grade_by_github_title. repeat keeps_step. Qed.

Lemma keeps_assign_grade g t gr : keeps (assign_grade sch g t gr).
Proof. unfold assign_grade. repeat keeps_step. keeps_write_tac. Qed.

Lemma keeps_add_project t d m : keeps (add_project sch t d m).
Proof. unfold add_project, get_project_by_title. repeat keeps_step. keeps_write_tac. Qed.

#[local] Hint Resolve keeps_get_student keeps_make_new_student keeps_get_grade
  keeps_assign_grade keeps_add_project : hb.

Lemma keeps_dispatch command args : keeps (dispatch sch command args).
Proof. unfold dispatch. repeat keeps_step. Qed.

#[local] Hint Resolve keeps_dispatch : hb.

Lemma keeps_handle_input stdin : keeps (handle_input sch stdin).
Proof.
  induction stdin as [|line rest IH]; cbn [handle_input]; repeat keeps_step.
Qed.
(** C7: from a world whose committed and session states satisfy the
    schema invariant, the command loop, whether it stops on [quit] or on
    an exception, ends in such a world; the committed rows of the end
    world extend those of the start (no row is updated or deleted) and
    stdout only grows. *)
Theorem handle_input_safe stdin w :
  world_ok w →
  world_ok (outcome_world (handle_input sch stdin w)) ∧
  world_le w (outcome_world (handle_input sch stdin w)).
Proof. apply keeps_handle_input. Qed.

End Safety.

Lemma handle_input_safe_witness :
  let w := mkWorld empty_db empty_db [] in
  world_ok hackbright_schema w ∧
  world_ok hackbright_schema (outcome_world (handle_input hackbright_schema (SO := heap_order) ["student ada"] w)) ∧
  world_le w (outcome_world (handle_input hackbright_schema (SO := heap_order) ["student ada"] w)).
Proof.
  intros w. assert (world_ok hackbright_schema w) as Hw.
  { split_and!; [apply wf_empty_db|apply wf_empty_db|reflexivity]. }
  split; [done|]. by apply handle_input_safe.
Defined.

End Safety.
