(* ===== verification/AbstractDB.v ===== *)
(** * An abstract specification of the database the program keeps

    Seen from the program, the three tables are three multimaps: the names
    registered under each GitHub account, the description and maximum grade
    registered under each project title, and the grades registered under
    each (account, title) pair, each list in the order of insertion.  This
    file defines them as stdpp [gmap]s ([Abs]), the abstraction [abstract]
    of the concrete tables of [Store], and the operations the program's
    commands perform on them; it proves that each INSERT and each
    [SELECT ... fetchone] of [Store] implements its abstract operation
    (a data refinement). *)

From S2P Require Import Prelude SqlValue Store.

Module AbstractDB.
Import SqlValue Store.

(** ** Multimaps built from a list of rows *)

Section Index.
Context {A K V : Type} `{Countable K} (key : A → K) (val : A → V).

Definition multi_add (k : K) (v : V) (m : gmap K (list V)) : gmap K (list V) :=
  <[k := default [] (m !! k) ++ [v]]> m.

(** The values of the rows grouped by key, in storage order. *)
Definition index (rows : list A) : gmap K (list V) :=
  foldl (λ m r, multi_add (key r) (val r) m) ∅ rows.

Lemma index_snoc rows r : index (rows ++ [r]) = multi_add (key r) (val r) (index rows).
Proof. unfold index. by rewrite foldl_app. Qed.

Lemma index_lookup rows k : default [] (index rows !! k) = val <$> filter (λ r, key r = k) rows.
Proof.
  induction rows as [|r rows IH] using rev_ind; [done|].
  rewrite index_snoc, filter_app, fmap_app, <-IH. unfold multi_add.
  rewrite filter_cons, filter_nil. destruct (decide (key r = k)) as [<-|Hne].
  - by rewrite lookup_insert_eq.
  - rewrite lookup_insert_ne by done. simpl. by rewrite app_nil_r.
Qed.

Lemma index_lookup_not_nil rows k : index rows !! k ≠ Some [].
Proof.
  induction rows as [|r rows IH] using rev_ind; [done|].
  rewrite index_snoc. unfold multi_add. destruct (decide (key r = k)) as [<-|Hne].
  - rewrite lookup_insert_eq. by destruct (default [] _).
  - by rewrite lookup_insert_ne.
Qed.

(** The first value under [k]: what a storage-order [fetchone] reads. *)
Definition first_of (m : gmap K (list V)) (k : K) : option V := m !! k ≫= head.

Lemma first_of_index rows k :
  first_of (index rows) k = val <$> head (filter (λ r, key r = k) rows).
Proof.
  unfold first_of. pose proof (index_lookup rows k) as Hl. pose proof (index_lookup_not_nil rows k).
  destruct (index rows !! k) as [l|]; simpl in *.
  - rewrite Hl. by destruct (filter _ rows).
  - by destruct (filter _ rows).
Qed.

End Index.

(** ** The abstract state and its operations *)

Record Abs := mkAbs {
  abs_students : gmap SqlVal (list (SqlVal * SqlVal));   (** account ↦ (first, last) *)
  abs_projects : gmap SqlVal (list (SqlVal * SqlVal));   (** title ↦ (description, max) *)
  abs_grades : gmap (SqlVal * SqlVal) (list SqlVal) }.   (** (account, title) ↦ grade *)

Definition names (r : Student) : SqlVal * SqlVal := (first_name r, last_name r).
Definition details (p : Project) : SqlVal * SqlVal := (description p, max_grade p).

Definition abstract (db : DB) : Abs :=
  mkAbs (index github names (students db)) (index title details (projects db))
        (index grade_key grade (grades db)).

Definition abs_new_student (a : Abs) (g f l : SqlVal) : Abs :=
  mkAbs (multi_add g (f, l) (abs_students a)) (abs_projects a) (abs_grades a).
Definition abs_new_project (a : Abs) (t d m : SqlVal) : Abs :=
  mkAbs (abs_students a) (multi_add t (d, m) (abs_projects a)) (abs_grades a).
Definition abs_give_grade (a : Abs) (g t gr : SqlVal) : Abs :=
  mkAbs (abs_students a) (abs_projects a) (multi_add (g, t) gr (abs_grades a)).

(** ** INSERT refines the abstract operations *)

Section Refinement.
Context (sch : Schema).

Lemma insert_student_abstract f l g db db' :
  insert_student sch f l g db = inr db' →
  ∃ f' l' g', coerce_store (ty_first_name sch) f = inr f' ∧ coerce_store (ty_last_name sch) l = inr l'
    ∧ coerce_store (ty_github sch) g = inr g' ∧ abstract db' = abs_new_student (abstract db) g' f' l'.
Proof.
  intros (f'&l'&g'&?&?&?&_&->)%insert_student_inr. exists f', l', g'. split_and!; [done..|].
  unfold abstract, abs_new_student. simpl. by rewrite index_snoc.
Qed.

Lemma insert_project_abstract t d m db db' :
  insert_project sch t d m db = inr db' →
  ∃ t' d' m', coerce_store (ty_title sch) t = inr t' ∧ coerce_store (ty_description sch) d = inr d'
    ∧ coerce_store (ty_max_grade sch) m = inr m' ∧ abstract db' = abs_new_project (abstract db) t' d' m'.
Proof.
  intros (t'&d'&m'&?&?&?&_&->)%insert_project_inr. exists t', d', m'. split_and!; [done..|].
  unfold abstract, abs_new_project. simpl. by rewrite index_snoc.
Qed.

Lemma insert_grade_abstract g t gr db db' :
  insert_grade sch g t gr db = inr db' →
  ∃ g' t' gr', coerce_store (ty_student_github sch) g = inr g'
    ∧ coerce_store (ty_project_title sch) t = inr t' ∧ coerce_store (ty_grade sch) gr = inr gr'
    ∧ abstract db' = abs_give_grade (abstract db) g' t' gr'.
Proof.
  intros (g'&t'&gr'&?&?&?&_&_&_&->)%insert_grade_inr. exists g', t', gr'. split_and!; [done..|].
  unfold abstract, abs_give_grade. simpl. by rewrite index_snoc.
Qed.

(** ** SELECT ... fetchone in storage order reads the first entry *)

Lemma select_student_abstract g db r :
  select_student (SO := heap_order) sch g db = inr r →
  ∃ v, coerce_cmp (ty_github sch) g = inr v ∧ names <$> r = first_of (abs_students (abstract db)) v
    ∧ ∀ s, r = Some s → github s = v.
Proof.
  unfold select_student. destruct (coerce_cmp _ g) as [|v]; [done|]. simpl. intros [= <-].
  exists v. split_and!; [done| |].
  - simpl. rewrite first_of_index. done.
  - intros s Hs. by apply head_filter_Some in Hs as [_ ?].
Qed.

Lemma select_grade_abstract g t db r :
  select_grade (SO := heap_order) sch g t db = inr r →
  ∃ vg vt, coerce_cmp (ty_student_github sch) g = inr vg ∧ coerce_cmp (ty_project_title sch) t = inr vt
    ∧ grade <$> r = first_of (abs_grades (abstract db)) (vg, vt).
Proof.
  unfold select_grade. destruct (coerce_cmp _ g) as [|vg], (coerce_cmp _ t) as [|vt]; try done.
  simpl. intros [= <-]. exists vg, vt. split_and!; [done|done|].
  simpl. rewrite first_of_index. unfold fetchone. simpl. do 2 f_equal.
  apply list_filter_iff. intros x. unfold grade_key. naive_solver.
Qed.
End Refinement.

End AbstractDB.
