(* ===== verification/Refinement.v ===== *)
(** * The program against the abstract database

    Each function of src/hackbright.py (lines 23-126), run on a world with
    nothing uncommitted, either raises and leaves the world as it was, or
    commits exactly the abstract operation of [AbstractDB] on the
    multimaps of the committed tables; each lookup, with rows read in
    storage order, prints what the first entry of the multimap under its
    key dictates.  Under the UNIQUE constraints the multimaps hold at most
    one entry per key, so the abstract state is a finite map. *)

From S2P Require Import Prelude SqlValue Store Session Ops AbstractDB.

Module Refinement.
Import SqlValue Store Session Ops AbstractDB.

(** Nothing is left uncommitted. *)
Definition synced (w : World) : Prop := committed w = session w.

Section Refinement.
Context (sch : Schema).

(** C16: Create Student refines [abs_new_student]: it raises with the
    world unchanged, or commits the abstract insertion of the coerced
    values. *)
Theorem make_new_student_refines f l g w :
  synced w →
  match make_new_student sch f l g w with
  | Done _ w' => synced w' ∧ ∃ f' l' g', coerce_store (ty_first_name sch) f = inr f'
      ∧ coerce_store (ty_last_name sch) l = inr l' ∧ coerce_store (ty_github sch) g = inr g'
      ∧ abstract (committed w') = abs_new_student (abstract (committed w)) g' f' l'
  | Raised _ w' => w' = w
  end.
Proof.
  intros Hs. destruct (insert_student sch f l g (session w)) as [e|db] eqn:Hins.
  - by rewrite (make_new_student_inl _ _ _ _ _ e).
  - rewrite (make_new_student_inr _ _ _ _ _ db) by done. split; [done|]. simpl.
    rewrite Hs. by apply insert_student_abstract.
Qed.

(** C17: Assign Grade refines [abs_give_grade] in the same way. *)
Theorem assign_grade_refines g t gr w :
  synced w →
  match assign_grade sch g t gr w with
  | Done _ w' => synced w' ∧ ∃ g' t' gr', coerce_store (ty_student_github sch) g = inr g'
      ∧ coerce_store (ty_project_title sch) t = inr t' ∧ coerce_store (ty_grade sch) gr = inr gr'
      ∧ abstract (committed w') = abs_give_grade (abstract (committed w)) g' t' gr'
  | Raised _ w' => w' = w
  end.
Proof.
  intros Hs. destruct (insert_grade sch g t gr (session w)) as [e|db] eqn:Hins.
  - by rewrite (assign_grade_inl _ _ _ _ _ e).
  - rewrite (assign_grade_inr _ _ _ _ _ db) by done. split; [done|]. simpl.
    rewrite Hs. by apply insert_grade_abstract.
Qed.

(** C18: Create Project refines [abs_new_project]: whichever message the
    verification prints, and even if reading the project back raises, the
    committed state is the abstract insertion, or the world is unchanged. *)
Theorem add_project_refines `{SO : ScanOrder} t d m w :
  synced w →
  let ok w' := synced w' ∧ ∃ t' d' m', coerce_store (ty_title sch) t = inr t'
      ∧ coerce_store (ty_description sch) d = inr d' ∧ coerce_store (ty_max_grade sch) m = inr m'
      ∧ abstract (committed w') = abs_new_project (abstract (committed w)) t' d' m' in
  match add_project sch t d m w with
  | Done _ w' => ok w'
  | Raised _ w' => w' = w ∨ ok w'
  end.
Proof.
  intros Hs ok. destruct (insert_project sch t d m (session w)) as [e|db] eqn:Hins.
  - rewrite (add_project_inl _ _ _ _ _ e) by done. by left.
  - assert (ok (mkWorld db db (stdout w))) as Hok.
    { split; [done|]. simpl. rewrite Hs. by apply insert_project_abstract. }
    rewrite (add_project_inr _ _ _ _ _ db) by done.
    destruct (select_project sch t db) as [|[]]; [by right|done|done].
Qed.

(** C19: Lookup Grade, rows read in storage order, prints the first grade
    registered under the pair, or the no-grade message when there is none;
    it raises only when a parameter cannot be read at its column's type. *)
Theorem get_grade_refines g t w :
  match get_grade_by_github_title (SO := heap_order) sch g t w with
  | Done _ w' => ∃ vg vt, coerce_cmp (ty_student_github sch) g = inr vg
      ∧ coerce_cmp (ty_project_title sch) t = inr vt
      ∧ w' = emit w (match first_of (abs_grades (abstract (session w))) (vg, vt) with
                     | Some v => ("Grades is " +:+ py_str v +:+ " for " +:+ t) +:+ nl
                     | None => msg_no_grade +:+ nl
                     end)
  | Raised e w' => w' = w ∧ ∃ err, e = DbExc err
  end.
Proof.
  destruct (select_grade (SO := heap_order) sch g t (session w)) as [err|r] eqn:Hsel.
  - unfold get_grade_by_github_title. erewrite bind_Raised by (by apply execute_inl).
    split; [done|by exists err].
  - destruct (select_grade_abstract _ _ _ _ _ Hsel) as (vg & vt & Hg & Ht & Hr).
    destruct r as [r|].
    + rewrite (get_grade_found _ _ _ _ r) by done. exists vg, vt. rewrite <-Hr. done.
    + rewrite get_grade_missing by done. exists vg, vt. rewrite <-Hr. done.
Qed.

(** C20: Lookup Student, rows read in storage order, prints the first
    names registered under the account, and raises [TypeError] exactly
    when none is. *)
Theorem get_student_refines g w :
  match get_student_by_github (SO := heap_order) sch g w with
  | Done _ w' => ∃ v f l, coerce_cmp (ty_github sch) g = inr v
      ∧ first_of (abs_students (abstract (session w))) v = Some (f, l)
      ∧ w' = emit w (("Student: " +:+ py_str f +:+ " " +:+ py_str l +:+ nl
                      +:+ "GitHub account: " +:+ py_str v) +:+ nl)
  | Raised e w' => w' = w ∧
      ((e = NoneSubscript ∧ ∃ v, coerce_cmp (ty_github sch) g = inr v
          ∧ first_of (abs_students (abstract (session w))) v = None) ∨ ∃ err, e = DbExc err)
  end.
Proof.
  destruct (select_student (SO := heap_order) sch g (session w)) as [err|r] eqn:Hsel.
  - unfold get_student_by_github. erewrite bind_Raised by (by apply execute_inl).
    split; [done|right; by exists err].
  - destruct (select_student_abstract _ _ _ _ Hsel) as (v & Hg & Hr & Hk).
    destruct r as [r|].
    + rewrite (get_student_found _ _ _ r) by done.
      exists v, (first_name r), (last_name r). split_and!; [done|by rewrite <-Hr|].
      unfold student_info. by rewrite (Hk r).
    + rewrite get_student_missing by done. split; [done|left]. split; [done|]. by exists v.
Qed.

End Refinement.

(** ** Witnesses on concrete inputs *)

Definition w_empty : World := mkWorld empty_db empty_db [].

Lemma make_new_student_refines_witness :
  synced w_empty ∧
  match make_new_student hackbright_schema "Ada" "Lovelace" "ada" w_empty with
  | Done _ w' => synced w' ∧ ∃ f' l' g', coerce_store (TText (Some 30)) "Ada" = inr f'
      ∧ coerce_store (TText (Some 30)) "Lovelace" = inr l' ∧ coerce_store (TText (Some 30)) "ada" = inr g'
      ∧ abstract (committed w') = abs_new_student (abstract (committed w_empty)) g' f' l'
  | Raised _ w' => w' = w_empty
  end.
Proof. split; [reflexivity|]. apply (make_new_student_refines hackbright_schema). reflexivity. Defined.

Lemma assign_grade_refines_witness :
  synced w_empty ∧
  match assign_grade hackbright_schema "ada" "Ants" "95" w_empty with
  | Done _ w' => synced w' ∧ ∃ g' t' gr', coerce_store (TText (Some 30)) "ada" = inr g'
      ∧ coerce_store (TText (Some 30)) "Ants" = inr t' ∧ coerce_store TInt "95" = inr gr'
      ∧ abstract (committed w') = abs_give_grade (abstract (committed w_empty)) g' t' gr'
  | Raised _ w' => w' = w_empty
  end.
Proof. split; [reflexivity|]. apply (assign_grade_refines hackbright_schema). reflexivity. Defined.

Lemma add_project_refines_witness :
  synced w_empty ∧
  match add_project hackbright_schema (SO := heap_order) "Ants" "d" "x" w_empty with
  | Done _ w' => False
  | Raised _ w' => w' = w_empty
  end.
Proof.
  split; [reflexivity|].
  pose proof (add_project_refines hackbright_schema (SO := heap_order) "Ants" "d" "x" w_empty
                eq_refl) as H.
  revert H. vm_compute. intros [H|(_ & t' & d' & m' & _ & _ & Hm & _)]; [done|discriminate].
Defined.

End Refinement.
