(* ===== verification/App.v ===== *)
(** * App: the Flask application, the SQLAlchemy extension, [connect_to_db]
      and the whole process

    Lines 10-11 of src/hackbright.py create the two module globals
    [app = Flask(__name__)] and [db = SQLAlchemy()]; [connect_to_db(app)]
    (lines 14-20) writes two keys of [app.config], points [db.app] at the
    one [app] and calls [db.init_app(app)]; the [__main__] block (lines
    175-183) runs it before the command loop.

    The extension is Flask-SQLAlchemy 2.x, the series whose [db.app]
    attribute the program sets (3.x dropped it).  Its [init_app] never
    fails: it defaults [SQLALCHEMY_DATABASE_URI] to [sqlite:///:memory:]
    and [SQLALCHEMY_TRACK_MODIFICATIONS] to [None] with [setdefault], and
    registers the extension in [app.extensions] (a second registration
    replaces the first).  No engine is made there: the engine is created at
    the first use of [db.session] from the URI [app.config] holds then.
    That first use happens outside any application context (the
    [__main__] block pushes none), so [db.get_app()] falls back to
    [db.app]; without it it raises [RuntimeError].

    The globals are one record [Globals]: [app.config] as a string-keyed
    [gmap], the keys of [app.extensions] as a [gset], and whether [db.app]
    is the global [app] (there is only one [Flask] object, so the alias is
    a flag).  The defaults [init_app] writes for the other [SQLALCHEMY_*]
    keys, which the program never reads, are not modelled. *)
From S2P Require Import Prelude Store Session Loop.

Module App.
Import Store Session Loop.

Inductive CfgVal :=
| CfgStr (s : string)
| CfgBool (b : bool)
| CfgNone.

#[export] Instance CfgVal_eq_dec : EqDecision CfgVal.
Proof. solve_decision. Defined.

(** The process globals [app] and [db]. *)
Record Globals := mkGlobals {
  app_config : gmap string CfgVal;   (** [app.config] *)
  app_extensions : gset string;      (** the keys of [app.extensions] *)
  db_app_is_app : bool }.            (** [db.app is app] *)

Definition uri_key : string := "SQLALCHEMY_DATABASE_URI".
Definition track_key : string := "SQLALCHEMY_TRACK_MODIFICATIONS".
Definition hackbright_uri : string := "postgresql:///hackbright".
Definition sqlite_memory : string := "sqlite:///:memory:".

(** Lines 10-11: [Flask(__name__)] starts with Flask's default config
    (a parameter) and no extension; [SQLAlchemy()] is bound to no app. *)
Definition init_globals (flask_defaults : gmap string CfgVal) : Globals :=
  mkGlobals flask_defaults ∅ false.

(** [app.config[k] = v] *)
Definition set_config (k : string) (v : CfgVal) (g : Globals) : Globals :=
  mkGlobals (<[k := v]> (app_config g)) (app_extensions g) (db_app_is_app g).

(** [app.config.setdefault(k, v)] *)
Definition setdefault_config (k : string) (v : CfgVal) (g : Globals) : Globals :=
  match app_config g !! k with
  | Some _ => g
  | None => set_config k v g
  end.

(** [db.app = app] *)
Definition set_db_app (g : Globals) : Globals :=
  mkGlobals (app_config g) (app_extensions g) true.

(** [db.init_app(app)] *)
Definition init_app (g : Globals) : Globals :=
  let g := setdefault_config uri_key (CfgStr sqlite_memory) g in
  let g := setdefault_config track_key CfgNone g in
  mkGlobals (app_config g) ({["sqlalchemy"]} ∪ app_extensions g) (db_app_is_app g).

(** Lines 14-20. *)
Definition connect_to_db (g : Globals) : Globals :=
  let g := set_config uri_key (CfgStr hackbright_uri) g in
  let g := set_config track_key (CfgBool false) g in
  let g := set_db_app g in
  init_app g.

(** The URL of the engine the first use of [db.session] creates. *)
Definition engine_url (g : Globals) : option string :=
  match app_config g !! uri_key with
  | Some (CfgStr url) => Some url
  | _ => None
  end.

(** The outcome of the whole process: the globals after startup and the
    run of [handle_input] and [close], or [NoApplication] when [db.session]
    finds no application: its first use (the first statement, or the final
    [close]) raises [RuntimeError]; what the loop printed before it is not
    modelled. *)
Inductive Process :=
| NoApplication (g : Globals)
| Ran (g : Globals) (o : Outcome unit).

Section Process.
Context (sch : Schema) `{SO : ScanOrder}.

(** Lines 175-183 from a fresh interpreter: [connect_to_db(app)], then
    [main] ([handle_input()] and [db.session.close()]) on the database
    named by the engine URL, in a cluster of databases by URL.  [None]
    stands for a URL that names no database of the cluster, whose
    [OperationalError] on the first statement is not modelled. *)
Definition hackbright_process (flask_defaults : gmap string CfgVal)
    (cluster : gmap string DB) (stdin : list string) : option Process :=
  let g := connect_to_db (init_globals flask_defaults) in
  if db_app_is_app g then
    url ← engine_url g;
    db0 ← cluster !! url;
    Some (Ran g (run sch db0 stdin))
  else Some (NoApplication g).

(** ** [connect_to_db] on a fresh interpreter *)

Lemma connect_to_db_fresh d :
  connect_to_db (init_globals d) =
    mkGlobals (<[track_key := CfgBool false]> (<[uri_key := CfgStr hackbright_uri]> d))
              {["sqlalchemy"]} true.
Proof.
  unfold connect_to_db, init_app, setdefault_config. simpl.
  rewrite lookup_insert_ne by done. rewrite lookup_insert_eq. simpl.
  rewrite lookup_insert_eq. by rewrite ?union_empty_r_L.
Qed.

(** C27: from a fresh interpreter, whatever Flask's default config,
    [connect_to_db] leaves [app.config] mapping the URI key to
    [postgresql:///hackbright] (not [init_app]'s SQLite default) and
    modification tracking to [False], the extension registered and
    [db.app] set to [app], so that [db.session] works outside an
    application context; the process then runs [main] on exactly the
    database of the cluster that the URL names. *)
Theorem hackbright_process_connects d cluster stdin :
  let g := connect_to_db (init_globals d) in
  app_config g !! uri_key = Some (CfgStr hackbright_uri) ∧
  app_config g !! track_key = Some (CfgBool false) ∧
  "sqlalchemy" ∈ app_extensions g ∧ db_app_is_app g = true ∧
  hackbright_process d cluster stdin = (λ db0, Ran g (run sch db0 stdin)) <$> cluster !! hackbright_uri.
Proof.
  intros g. subst g. rewrite connect_to_db_fresh. split_and!; simpl.
  - rewrite lookup_insert_ne by done. apply lookup_insert_eq.
  - apply lookup_insert_eq.
  - set_solver.
  - done.
  - unfold hackbright_process. rewrite connect_to_db_fresh. simpl.
    unfold engine_url. simpl. rewrite lookup_insert_ne by done. rewrite lookup_insert_eq. simpl.
    by destruct (cluster !! hackbright_uri).
Qed.
End Process.

End App.
