(* ===== verification/OrderIndep.v ===== *)
(** * OrderIndep: under the UNIQUE constraints, the program does not
      depend on the row order of the database

    Every SELECT of the program ends in [fetchone()], which returns the
    first matching row in whatever order the database scans the table
    ([ScanOrder] in Store.v).  Under the lab's schema, which declares no
    constraint, that order shows through (C9).  Here we prove that under
    a schema declaring the three UNIQUE constraints (account, title,
    (account, title)), at most one row ever matches, so that every
    handler, the dispatch, the loop and the whole run give the same
    outcome under any two scan orders.

    The relational tool is [agree I m1 m2]: the two computations give the
    same outcome from every world satisfying [I].  It composes through
    bind when the first computation [keeps] the invariant, which Safety.v
    proves of every operation. *)
From S2P Require Import Prelude SqlValue Store Session Ops Loop Safety.

Module OrderIndep.
Import SqlValue Store Session Ops Loop Safety.

(** ** Computations that agree on an invariant *)

Section Agree.
Context (I : World → Prop) (R : relation World).

Definition agree {A} (m1 m2 : M A) : Prop := ∀ w, I w → m1 w = m2 w.

Lemma agree_refl {A} (m : M A) : agree m m.
Proof. done. Qed.

Lemma agree_bind {A B} (m1 m2 : M A) (k1 k2 : A → M B) :
  keeps I R m1 → agree m1 m2 → (∀ a, agree (k1 a) (k2 a)) → agree (m1 ≫= k1) (m2 ≫= k2).
Proof.
  intros Hk Hm Hf w Hw. unfold mbind, M_bind. rewrite <-(Hm w Hw).
  destruct (Hk w Hw) as [HI _]. destruct (m1 w) as [a w'|e w']; simpl in *; [|done].
  by apply Hf.
Qed.
End Agree.

(** ** [fetchone] on a key that is unique *)

Lemma NoDup_fmap_key_eq {A K} (key : A → K) (rows : list A) x y :
  NoDup (key <$> rows) → x ∈ rows → y ∈ rows → key x = key y → x = y.
Proof.
  intros Hnd (i & Hi)%list_elem_of_lookup (j & Hj)%list_elem_of_lookup Hk.
  assert (i = j) as ->; [|congruence].
  eapply NoDup_lookup; [exact Hnd|..]; rewrite list_lookup_fmap; [rewrite Hi|rewrite Hj]; simpl;
    [by rewrite Hk|done].
Qed.

Lemma fetchone_order_indep (SO1 SO2 : ScanOrder) {A} (P : A → Prop) `{∀ x, Decision (P x)} rows :
  (∀ x y, x ∈ rows → y ∈ rows → P x → P y → x = y) →
  fetchone (SO := SO1) P rows = fetchone (SO := SO2) P rows.
Proof.
  intros Hu. destruct (fetchone (SO := SO1) P rows) as [x|] eqn:E.
  - apply fetchone_Some_inv in E as [Hx HP]. symmetry. apply (fetchone_unique (SO := SO2) P); eauto.
  - symmetry. apply (fetchone_None (SO := SO2) P). by apply (fetchone_None_inv (SO := SO1) P).
Qed.

(** ** The schema's UNIQUE constraints make every SELECT order-free *)

Section Unique.
Context (sch : Schema) (SO1 SO2 : ScanOrder).
Hypothesis uq_g : uq_github sch = true.
Hypothesis uq_t : uq_title sch = true.
Hypothesis uq_gr : uq_grade sch = true.

Lemma select_student_indep g db :
  wf_db sch db → select_student (SO := SO1) sch g db = select_student (SO := SO2) sch g db.
Proof.
  intros Hwf. unfold select_student. destruct (coerce_cmp _ g) as [|v]; [done|]. simpl.
  f_equal. apply fetchone_order_indep. intros x y Hx Hy Px Py.
  eapply NoDup_fmap_key_eq; [apply (wf_uq_github _ _ Hwf uq_g)|done|done|congruence].
Qed.

Lemma select_project_indep t db :
  wf_db sch db → select_project (SO := SO1) sch t db = select_project (SO := SO2) sch t db.
Proof.
  intros Hwf. unfold select_project. destruct (coerce_cmp _ t) as [|v]; [done|]. simpl.
  f_equal. apply fetchone_order_indep. intros x y Hx Hy Px Py.
  eapply NoDup_fmap_key_eq; [apply (wf_uq_title _ _ Hwf uq_t)|done|done|congruence].
Qed.

Lemma select_grade_indep g t db :
  wf_db sch db → select_grade (SO := SO1) sch g t db = select_grade (SO := SO2) sch g t db.
Proof.
  intros Hwf. unfold select_grade.
  destruct (coerce_cmp _ g) as [|vg], (coerce_cmp _ t) as [|vt]; [done..|]. simpl.
  f_equal. apply fetchone_order_indep. intros x y Hx Hy [Hx1 Hx2] [Hy1 Hy2].
  eapply NoDup_fmap_key_eq; [apply (wf_uq_grade _ _ Hwf uq_gr)|done|done|].
  unfold grade_key. congruence.
Qed.

Local Abbreviation agree := (agree (world_ok sch)).

Lemma agree_execute {A} (q1 q2 : DB → DbError + A) :
  (∀ db, wf_db sch db → q1 db = q2 db) → agree (execute q1) (execute q2).
Proof. intros Hq w (_ & Hs & _). unfold execute. by rewrite Hq. Qed.

Lemma agree_bind_ok {A B} (m1 m2 : M A) (k1 k2 : A → M B) :
  Session.keeps (world_ok sch) world_le m1 → agree m1 m2 → (∀ a, agree (k1 a) (k2 a)) →
  agree (m1 ≫= k1) (m2 ≫= k2).
Proof. apply agree_bind. Qed.

Lemma keeps_insert_project t d m :
  Session.keeps (world_ok sch) world_le (execute_write (insert_project sch t d m)).
Proof.
  apply keeps_execute_write. intros db db' Hwf Hins.
  split; [by eapply insert_project_wf|by eapply insert_project_grows].
Qed.

(** One step of an [agree] proof: equal computations, a [bind] whose
    first computations agree, or a case of the dispatch. *)
Ltac agree_step :=
  first
  [ apply agree_refl
  | apply agree_execute; intros ??;
      first [by apply select_student_indep | by apply select_project_indep | by apply select_grade_indep]
  | apply agree_bind_ok;
      [ solve [first [apply keeps_execute | apply keeps_py_index | apply keeps_py_last
              | apply keeps_unpack2 | apply keeps_unpack3 | apply keeps_get_student | apply keeps_get_grade
              | apply keeps_dispatch | apply keeps_write | apply keeps_commit
              | apply keeps_insert_project]; exact _]
      | | intros ? ]
  | match goal with |- agree (match ?x with _ => _ end) _ => destruct x end
  | case_decide ].

Lemma agree_get_student g :
  agree (get_student_by_github (SO := SO1) sch g) (get_student_by_github (SO := SO2) sch g).
Proof. unfold get_student_by_github. repeat agree_step. Qed.

Lemma agree_get_grade g t :
  agree (get_grade_by_github_title (SO := SO1) sch g t) (get_grade_by_github_title (SO := SO2) sch g t).
Proof. unfold get_grade_by_github_title. repeat agree_step. Qed.

Lemma agree_add_project t d m :
  agree (add_project (SO := SO1) sch t d m) (add_project (SO := SO2) sch t d m).
Proof.
  unfold add_project, get_project_by_title. repeat agree_step.
Qed.

Lemma agree_dispatch command args :
  agree (dispatch (SO := SO1) sch command args) (dispatch (SO := SO2) sch command args).
Proof.
  unfold dispatch, get_project_by_title.
  repeat (agree_step || apply agree_get_student || apply agree_get_grade || apply agree_add_project).
Qed.

Lemma agree_handle_input stdin :
  agree (handle_input (SO := SO1) sch stdin) (handle_input (SO := SO2) sch stdin).
Proof.
  induction stdin as [|line rest IH]; cbn [handle_input];
    repeat (agree_step || apply agree_dispatch || apply IH).
Qed.

(** C28: under a schema that declares the three UNIQUE constraints, a run
    of the program from a database satisfying the schema gives the same
    outcome (output, committed and session state, exception) under any two
    row orders the database may choose for its scans. *)
Theorem run_order_independent db0 stdin :
  wf_db sch db0 → run (SO := SO1) sch db0 stdin = run (SO := SO2) sch db0 stdin.
Proof.
  intros Hwf. unfold run, main.
  apply (agree_bind_ok _ _ _ _ (keeps_handle_input (SO := SO1) sch stdin) (agree_handle_input stdin)).
  - intros _. apply agree_refl.
  - split_and!; simpl; done || reflexivity.
Qed.
End Unique.

(** A second row order: the table scanned backwards. *)
#[export] Program Instance reverse_order : ScanOrder := {| scan A l := reverse l |}.
Next Obligation. intros A l. apply reverse_Permutation. Qed.

(** ** Witnesses *)

Definition regrade_input : list string :=
  ["new_student Ada Lovelace ada"; "give_grade ada Ants 80"; "give_grade ada Ants 95";
   "grade ada Ants"; "quit"].

Definition session_input : list string :=
  ["new_student Ada Lovelace ada"; "new_project Ants colony 100"; "give_grade ada Ants 95";
   "grade ada Ants"; "student ada"; "quit"].

Lemma run_order_independent_witness :
  (uq_github strict_schema = true ∧ uq_title strict_schema = true ∧ uq_grade strict_schema = true
   ∧ wf_db strict_schema empty_db) ∧
  run (SO := heap_order) strict_schema empty_db session_input =
  run (SO := reverse_order) strict_schema empty_db session_input.
Proof.
  split; [split_and!; [done|done|done|apply wf_empty_db]|].
  apply run_order_independent; [done..|apply wf_empty_db].
Defined.

(** Without the constraints the order shows: under the lab's schema the
    same input prints the first grade in storage order and the second
    one when the table is scanned backwards. *)
Lemma run_order_dependent_lab_schema :
  run (SO := heap_order) hackbright_schema empty_db regrade_input ≠
  run (SO := reverse_order) hackbright_schema empty_db regrade_input.
Proof. vm_compute. discriminate. Qed.
End OrderIndep.
